(** * fxa-sendgrid-event-proxy: the webhook handler of [index.js]

    A shallow embedding of [index.js] and the properties of its
    authentication, event marshalling and dispatch.

    Conventions of the embedding.
    - A JavaScript value is a [JsVal]: the values [JSON.parse] produces.
      Numbers are integers ([Z]); a string is the sequence of its UTF-8
      bytes, which is what [hash.update] digests.
    - A JavaScript computation that may throw is a [Completion].
    - [process.env.AUTH], [process.env.SQS_SUFFIX], [JSON.parse] and the
      conversion of a non-number to a number are parameters of the section
      [Handler]; the outcome of each [SQS_CLIENT.pushAsync] call is an
      argument of [processEvents] and [main].
    - [console.log] and [console.error] are not modelled. *)

From Stdlib Require Import ZArith List String Ascii Bool Lia DecimalString.
Import ListNotations.

Set Warnings "-register-all".

Local Open Scope string_scope.
Local Open Scope Z_scope.

(** ** Completions *)

Inductive Error : Type :=
| TypeError
| RangeError
| SyntaxError
| PushError.

Inductive Completion (A : Type) : Type :=
| Ret (a : A)
| Throw (e : Error).

Arguments Ret {A} a.
Arguments Throw {A} e.

Definition bind {A B : Type} (c : Completion A) (k : A -> Completion B)
  : Completion B :=
  match c with
  | Ret a => k a
  | Throw e => Throw e
  end.

Notation "x <- c ;; k" := (bind c (fun x => k))
  (at level 61, c at next level, right associativity).

Definition throws {A : Type} (c : Completion A) : Prop :=
  exists e, c = Throw e.

(** ** JavaScript values *)

Inductive JsVal : Type :=
| JUndefined
| JNull
| JBool (b : bool)
| JNum (n : Z)
| JStr (s : string)
| JArr (items : list JsVal)
| JObj (props : list (string * JsVal)).

(** ToBoolean. *)
Definition truthy (v : JsVal) : bool :=
  match v with
  | JUndefined | JNull => false
  | JBool b => b
  | JNum n => negb (n =? 0)
  | JStr s => negb (s =? EmptyString)%string
  | JArr _ | JObj _ => true
  end.

Fixpoint lookup (key : string) (props : list (string * JsVal)) : JsVal :=
  match props with
  | [] => JUndefined
  | (k, v) :: rest => if (k =? key)%string then v else lookup key rest
  end.

(** [v.key], for the property names the handler reads ([body],
    [queryStringParameters], [auth], [timestamp], [sg_message_id], [event],
    [email], [status], [response], [sg_event_id]): none of them is defined
    on the prototype of a string, a number, a boolean or an array. *)
Definition Get (v : JsVal) (key : string) : Completion JsVal :=
  match v with
  | JUndefined | JNull => Throw TypeError
  | JObj props => Ret (lookup key props)
  | _ => Ret JUndefined
  end.

(** [Array.isArray]. *)
Definition isArray (v : JsVal) : bool :=
  match v with
  | JArr _ => true
  | _ => false
  end.

(** The properties of an object. *)
Definition props_of (v : JsVal) : list (string * JsVal) :=
  match v with
  | JObj props => props
  | _ => []
  end.

(** ** Strings *)

Fixpoint prefix_of (p s : string) : bool :=
  match p with
  | EmptyString => true
  | String a p' =>
      match s with
      | EmptyString => false
      | String b s' => if Ascii.eqb a b then prefix_of p' s' else false
      end
  end.

Fixpoint rev_string (acc s : string) : string :=
  match s with
  | EmptyString => acc
  | String c s' => rev_string (String c acc) s'
  end.

(** [split_from sep s skip cur]: the scan of [String.prototype.split] for a
    non-empty separator.  [cur] is the part read so far, reversed; [skip]
    is the number of characters of a separator just matched that are still
    to be passed over. *)
Fixpoint split_from (sep s : string) (skip : nat) (cur : string)
  : list string :=
  match s with
  | EmptyString => [rev_string EmptyString cur]
  | String c s' =>
      match skip with
      | S k => split_from sep s' k cur
      | O =>
          if prefix_of sep s
          then
            rev_string EmptyString cur
              :: split_from sep s' (pred (length sep)) EmptyString
          else split_from sep s' O (String c cur)
      end
  end.

(** [s.split(sep)] for a non-empty [sep]. *)
Definition split (sep s : string) : list string :=
  split_from sep s O EmptyString.

(** [s[index]]: [None] is [undefined]. *)
Definition char_at (s : string) (index : nat) : option ascii :=
  String.get index s.

(** ** SHA-256 (FIPS 180-4) and base64 (RFC 4648), as [crypto] computes them *)

Module SHA256.

Definition w32 (x : Z) : Z := x mod 2 ^ 32.
Definition add32 (x y : Z) : Z := w32 (x + y).
Definition rotr (n x : Z) : Z :=
  Z.lor (Z.shiftr x n) (w32 (Z.shiftl x (32 - n))).
Definition not32 (x : Z) : Z := Z.lxor x 0xFFFFFFFF.

Definition Ch (x y z : Z) : Z := Z.lxor (Z.land x y) (Z.land (not32 x) z).
Definition Maj (x y z : Z) : Z :=
  Z.lxor (Z.lxor (Z.land x y) (Z.land x z)) (Z.land y z).
Definition bigsigma0 (x : Z) : Z :=
  Z.lxor (Z.lxor (rotr 2 x) (rotr 13 x)) (rotr 22 x).
Definition bigsigma1 (x : Z) : Z :=
  Z.lxor (Z.lxor (rotr 6 x) (rotr 11 x)) (rotr 25 x).
Definition smallsigma0 (x : Z) : Z :=
  Z.lxor (Z.lxor (rotr 7 x) (rotr 18 x)) (Z.shiftr x 3).
Definition smallsigma1 (x : Z) : Z :=
  Z.lxor (Z.lxor (rotr 17 x) (rotr 19 x)) (Z.shiftr x 10).

(** The first sixty-four primes. *)
Definition primes : list Z :=
  [ 2; 3; 5; 7; 11; 13; 17; 19; 23; 29; 31; 37; 41; 43; 47; 53;
    59; 61; 67; 71; 73; 79; 83; 89; 97; 101; 103; 107; 109; 113; 127; 131;
    137; 139; 149; 151; 157; 163; 167; 173; 179; 181; 191; 193; 197; 199;
    211; 223; 227; 229; 233; 239; 241; 251; 257; 263; 269; 271; 277; 281;
    283; 293; 307; 311 ].

(** The integer cube root of [n], searched between [lo] and [hi]:
    [lo ^ 3 <= n < hi ^ 3]. *)
Fixpoint cube_root_between (fuel : nat) (lo hi n : Z) : Z :=
  match fuel with
  | O => lo
  | S fuel' =>
      if hi - lo <=? 1 then lo
      else
        let mid := (lo + hi) / 2 in
        if mid * mid * mid <=? n
        then cube_root_between fuel' mid hi n
        else cube_root_between fuel' lo mid n
  end.

Definition cube_root (n : Z) : Z := cube_root_between 40 0 (2 ^ 35) n.

(** The round constants: the first 32 bits of the fractional part of the
    cube root of each of the first sixty-four primes. *)
Definition K : list Z :=
  Eval vm_compute in map (fun p => w32 (cube_root (p * 2 ^ 96))) primes.

(** The eight working variables, and the hash value between blocks. *)
Record state : Type := mkState
  { ha : Z; hb : Z; hc : Z; hd : Z; he : Z; hf : Z; hg : Z; hh : Z }.

(** The first 32 bits of the fractional part of the square root of a
    prime. *)
Definition root_bits (p : Z) : Z := w32 (Z.sqrt (p * 2 ^ 64)).

(** The initial hash value, from the first eight primes. *)
Definition H0 : state :=
  Eval vm_compute in
    mkState (root_bits 2) (root_bits 3) (root_bits 5) (root_bits 7)
            (root_bits 11) (root_bits 13) (root_bits 17) (root_bits 19).

(** Padding: the bit 1, zero bits up to 56 bytes modulo 64, and the
    length of the message in bits on 8 bytes, big-endian. *)
Definition be_bytes (count : nat) (x : Z) : list Z :=
  map (fun i => Z.land (Z.shiftr x (8 * Z.of_nat i)) 255)
      (rev (seq 0 count)).

Definition pad (msg : list Z) : list Z :=
  let len := Z.of_nat (List.length msg) in
  let zeros := Z.to_nat ((55 - len) mod 64) in
  msg ++ [0x80] ++ repeat 0 zeros ++ be_bytes 8 (8 * len).

Fixpoint words_of_bytes (bytes : list Z) : list Z :=
  match bytes with
  | b0 :: b1 :: b2 :: b3 :: rest =>
      (Z.shiftl b0 24 + Z.shiftl b1 16 + Z.shiftl b2 8 + b3)
        :: words_of_bytes rest
  | _ => []
  end.

(** The message schedule, most recent word first: [W_t] is computed from
    [W_(t-2)], [W_(t-7)], [W_(t-15)] and [W_(t-16)]. *)
Definition next_word (recent : list Z) : Z :=
  add32 (add32 (smallsigma1 (nth 1 recent 0)) (nth 6 recent 0))
        (add32 (smallsigma0 (nth 14 recent 0)) (nth 15 recent 0)).

Fixpoint extend (count : nat) (recent : list Z) : list Z :=
  match count with
  | O => recent
  | S count' => extend count' (next_word recent :: recent)
  end.

Definition schedule (block : list Z) : list Z :=
  rev (extend 48 (rev block)).

Definition round (s : state) (kw : Z * Z) : state :=
  let (k, w) := kw in
  let t1 :=
    add32 (add32 (add32 (hh s) (bigsigma1 (he s)))
                 (add32 (Ch (he s) (hf s) (hg s)) k)) w in
  let t2 := add32 (bigsigma0 (ha s)) (Maj (ha s) (hb s) (hc s)) in
  mkState (add32 t1 t2) (ha s) (hb s) (hc s)
          (add32 (hd s) t1) (he s) (hf s) (hg s).

Definition compress (h : state) (block : list Z) : state :=
  let s := fold_left round (combine K (schedule block)) h in
  mkState (add32 (ha h) (ha s)) (add32 (hb h) (hb s))
          (add32 (hc h) (hc s)) (add32 (hd h) (hd s))
          (add32 (he h) (he s)) (add32 (hf h) (hf s))
          (add32 (hg h) (hg s)) (add32 (hh h) (hh s)).

Fixpoint blocks (fuel : nat) (words : list Z) (h : state) : state :=
  match fuel with
  | O => h
  | S fuel' =>
      match words with
      | [] => h
      | _ => blocks fuel' (skipn 16 words) (compress h (firstn 16 words))
      end
  end.

Definition word_bytes (x : Z) : list Z :=
  [ Z.land (Z.shiftr x 24) 255; Z.land (Z.shiftr x 16) 255;
    Z.land (Z.shiftr x 8) 255; Z.land x 255 ].

Definition state_bytes (s : state) : list Z :=
  word_bytes (ha s) ++ word_bytes (hb s) ++ word_bytes (hc s)
    ++ word_bytes (hd s) ++ word_bytes (he s) ++ word_bytes (hf s)
    ++ word_bytes (hg s) ++ word_bytes (hh s).

Definition hash (msg : list Z) : state :=
  let words := words_of_bytes (pad msg) in
  blocks (List.length words) words H0.

Definition digest (msg : list Z) : list Z := state_bytes (hash msg).

End SHA256.

Module Base64.

Definition alphabet : string :=
  "ABCDEFGHIJKLMNOPQRSTUVWXYZabcdefghijklmnopqrstuvwxyz0123456789+/".

Definition char (sextet : Z) : ascii :=
  match String.get (Z.to_nat sextet) alphabet with
  | Some c => c
  | None => "="%char
  end.

Fixpoint encode (bytes : list Z) : string :=
  match bytes with
  | [] => EmptyString
  | [b0] =>
      String (char (Z.shiftr b0 2))
        (String (char (Z.shiftl (Z.land b0 3) 4)) "==")
  | [b0; b1] =>
      String (char (Z.shiftr b0 2))
        (String (char (Z.lor (Z.shiftl (Z.land b0 3) 4) (Z.shiftr b1 4)))
           (String (char (Z.shiftl (Z.land b1 15) 2)) "="))
  | b0 :: b1 :: b2 :: rest =>
      String (char (Z.shiftr b0 2))
        (String (char (Z.lor (Z.shiftl (Z.land b0 3) 4) (Z.shiftr b1 4)))
           (String (char (Z.lor (Z.shiftl (Z.land b1 15) 2)
                                (Z.shiftr b2 6)))
              (String (char (Z.land b2 63)) (encode rest))))
  end.

End Base64.

Definition bytes_of_string (s : string) : list Z :=
  map (fun c => Z.of_N (N_of_ascii c)) (list_ascii_of_string s).

Definition sha256_base64 (s : string) : string :=
  Base64.encode (SHA256.digest (bytes_of_string s)).

Arguments sha256_base64 : simpl never.

(** ** Dates: [new Date(value).toISOString()] (ECMAScript, 21.4) *)

Inductive Number : Type :=
| NaN
| Num (n : Z).

(** [x * y] with [y] a number literal. *)
Definition times (x : Number) (y : Z) : Number :=
  match x with
  | NaN => NaN
  | Num n => Num (n * y)
  end.

Module Date.

Definition msPerDay : Z := 86400000.

(** TimeClip: the time value of [new Date(value)], [None] for an invalid
    date. *)
Definition TimeClip (value : Number) : option Z :=
  match value with
  | NaN => None
  | Num t => if Z.abs t <=? 8640000000000000 then Some t else None
  end.

Definition Day (t : Z) : Z := t / msPerDay.
Definition TimeWithinDay (t : Z) : Z := t mod msPerDay.

(** DayFromYear(y): the day number of the first day of year [y]. *)
Definition DayFromYear (y : Z) : Z :=
  365 * (y - 1970) + (y - 1969) / 4 - (y - 1901) / 100 + (y - 1601) / 400.

(** Year, month (1 to 12) and day of the month of a day number, in the
    proleptic Gregorian calendar, counted in eras of 400 years that
    start on the first of March. *)
Definition civil (day : Z) : Z * Z * Z :=
  let z := day + 719468 in
  let era := z / 146097 in
  let doe := z - era * 146097 in
  let yoe := (doe - doe / 1460 + doe / 36524 - doe / 146096) / 365 in
  let doy := doe - (365 * yoe + yoe / 4 - yoe / 100) in
  let mp := (5 * doy + 2) / 153 in
  let d := doy - (153 * mp + 2) / 5 + 1 in
  let m := if mp <? 10 then mp + 3 else mp - 9 in
  let y := yoe + era * 400 + (if m <=? 2 then 1 else 0) in
  (y, m, d).

Definition digit (n : Z) : ascii :=
  ascii_of_N (48 + Z.to_N (n mod 10)).

(** [n] on [width] decimal digits, padded with zeros. *)
Fixpoint digits (width : nat) (n : Z) : string :=
  match width with
  | O => EmptyString
  | S width' => (digits width' (n / 10) ++ String (digit n) EmptyString)%string
  end.

Definition year_string (y : Z) : string :=
  if (0 <=? y) && (y <=? 9999) then digits 4 y
  else
    let sign := if y <? 0 then "-" else "+" in
    (sign ++ digits 6 (Z.abs y))%string.

Definition format (t : Z) : string :=
  let '(y, m, d) := civil (Day t) in
  let ms := TimeWithinDay t in
  (year_string y ++ "-" ++ digits 2 m ++ "-" ++ digits 2 d ++ "T"
     ++ digits 2 (ms / 3600000) ++ ":" ++ digits 2 (ms / 60000 mod 60)
     ++ ":" ++ digits 2 (ms / 1000 mod 60) ++ "." ++ digits 3 (ms mod 1000)
     ++ "Z")%string.

(** [date.toISOString()]: a RangeError on an invalid date. *)
Definition toISOString (date : option Z) : Completion string :=
  match date with
  | None => Throw RangeError
  | Some t => Ret (format t)
  end.

End Date.

(** ** Notifications *)

Module mail.
Record t : Type := make { timestamp : string; messageId : string }.
End mail.

Record recipient : Type := { emailAddress : JsVal }.

Module bounce.
Record t : Type := make
  { bounceType : string;
    bounceSubType : string;
    bouncedRecipients : list recipient;
    timestamp : string;
    feedbackId : JsVal }.
End bounce.

Module delivery.
Record t : Type := make
  { timestamp : string;
    recipients : list JsVal;
    smtpResponse : JsVal }.
End delivery.

Module complaint.
Record t : Type := make
  { complainedRecipients : list recipient;
    timestamp : string;
    feedbackId : JsVal }.
End complaint.

(** The sub-record of a notification, under the key [bounce], [delivery]
    or [complaint]. *)
Inductive Detail : Type :=
| bounce (b : bounce.t)
| delivery (d : delivery.t)
| complaint (c : complaint.t).

(** What [marshallBounceEvent], [marshallDeliveryEvent] and
    [marshallComplaintEvent] return. *)
Record Part : Type :=
  { part_notificationType : string; part_detail : Detail }.

(** [{ mail, ...part }]. *)
Record Notification : Type :=
  { mail : mail.t; notificationType : string; detail : Detail }.

Definition spread (m : mail.t) (p : Part) : Notification :=
  {| mail := m;
     notificationType := part_notificationType p;
     detail := part_detail p |}.

Definition detail_timestamp (d : Detail) : string :=
  match d with
  | bounce b => bounce.timestamp b
  | delivery d => delivery.timestamp d
  | complaint c => complaint.timestamp c
  end.

(** ** The response of the handler *)

Record Response : Type :=
  { statusCode : Z; body : string; isBase64Encoded : bool }.

(** ** Operators *)

(** [v === s] for a string literal [s]. *)
Definition strict_eq (v : JsVal) (s : string) : bool :=
  match v with
  | JStr x => (x =? s)%string
  | _ => false
  end.

(** [part === s] for an element [part] of an array of strings that may be
    [undefined]. *)
Definition part_eq (part : option string) (s : string) : bool :=
  match part with
  | Some x => (x =? s)%string
  | None => false
  end.

(** [char === authHash[index]]. *)
Definition char_eq (char : ascii) (other : option ascii) : bool :=
  match other with
  | Some c => Ascii.eqb char c
  | None => false
  end.

(** [x || fallback] for [x] a string or [undefined]. *)
Definition or_else (x : option string) (fallback : string) : string :=
  match x with
  | Some s => if (s =? EmptyString)%string then fallback else s
  | None => fallback
  end.

(** [v.split(sep)]: a TypeError when [v] is not a string, which has no
    [split] method to call. *)
Definition call_split (v : JsVal) (sep : string)
  : Completion (list string) :=
  match v with
  | JStr s => Ret (split sep s)
  | _ => Throw TypeError
  end.

(** [array.reduce(f, init)]: [f] receives the accumulator, the element and
    its index, for every element from the first to the last. *)
Fixpoint reduce_from {A B : Type} (f : B -> A -> nat -> B)
  (array : list A) (index : nat) (acc : B) : B :=
  match array with
  | [] => acc
  | x :: rest => reduce_from f rest (S index) (f acc x index)
  end.

Definition reduce {A B : Type} (f : B -> A -> nat -> B)
  (array : list A) (init : B) : B :=
  reduce_from f array O init.

Fixpoint mapM {A B : Type} (f : A -> Completion B) (l : list A)
  : Completion (list B) :=
  match l with
  | [] => Ret []
  | x :: rest => y <- f x ;; ys <- mapM f rest ;; Ret (y :: ys)
  end.

(** [array.filter(x => !! x)] on an array of notifications and
    [undefined]s. *)
Fixpoint compact {A : Type} (l : list (option A)) : list A :=
  match l with
  | [] => []
  | Some x :: rest => x :: compact rest
  | None :: rest => compact rest
  end.

(** [`${n}`]. *)
Definition decimal (n : nat) : string :=
  NilZero.string_of_uint (Nat.to_uint n).

(** ** index.js *)

Module EVENTS.
Definition BOUNCE : string := "bounce".
Definition DELIVERED : string := "delivered".
Definition DROPPED : string := "dropped".
Definition SPAM : string := "spamreport".
End EVENTS.

(** [createHash]: [hash.update] throws a TypeError on a value that is not
    a string (of the values of [JsVal]). *)
Definition createHash (value : JsVal) : Completion string :=
  match value with
  | JStr s => Ret (sha256_base64 s)
  | _ => Throw TypeError
  end.

(** The callback of the [reduce] of [authenticate]:
    [(equal, char, index) => equal && char === authHash[index]]. *)
Definition equal_step (authHash : string)
  (equal : bool) (char : ascii) (index : nat) : bool :=
  equal && char_eq char (char_at authHash index).




Definition mapStatusToBounceSubType (statusParts : list string)
  : option string :=
  let subject := nth_error statusParts 1 in
  if part_eq subject "1" then Some "NoEmail"
  else if part_eq subject "2" then
    let detail := nth_error statusParts 2 in
    if part_eq detail "2" then Some "MailboxFull"
    else if part_eq detail "3" then Some "MessageTooLarge"
    else None
  else if part_eq subject "6" then Some "ContentRejected"
  else None.

Definition marshallMailObject (event : JsVal) (timestamp : string)
  : Completion mail.t :=
  sg_message_id <- Get event "sg_message_id" ;;
  parts <- call_split sg_message_id ".filter" ;;
  (* [split] never returns an empty array *)
  Ret (mail.make timestamp (hd EmptyString parts)).

Definition marshallBounceEvent (event : JsVal) (timestamp : string)
  : Completion Part :=
  kind <- Get event "event" ;;
  types <-
    (if strict_eq kind EVENTS.DROPPED
     then Ret (Some "Permanent", Some "Suppressed")
     else
       status <- Get event "status" ;;
       if truthy status
       then
         statusParts <- call_split status "." ;;
         if (List.length statusParts =? 3)%nat
         then
           Ret (if part_eq (nth_error statusParts 0) "5"
                then Some "Permanent" else None,
                mapStatusToBounceSubType statusParts)
         else Ret (None, None)
       else Ret (None, None)) ;;
  email <- Get event "email" ;;
  sg_event_id <- Get event "sg_event_id" ;;
  Ret {| part_notificationType := "Bounce";
         part_detail :=
           bounce
             (bounce.make (or_else (fst types) "Transient")
                          (or_else (snd types) "General")
                          [ {| emailAddress := email |} ]
                          timestamp
                          sg_event_id) |}.

Definition marshallDeliveryEvent (event : JsVal) (timestamp : string)
  : Completion Part :=
  email <- Get event "email" ;;
  response <- Get event "response" ;;
  Ret {| part_notificationType := "Delivery";
         part_detail :=
           delivery (delivery.make timestamp [ email ] response) |}.

Definition marshallComplaintEvent (event : JsVal) (timestamp : string)
  : Completion Part :=
  email <- Get event "email" ;;
  sg_event_id <- Get event "sg_event_id" ;;
  Ret {| part_notificationType := "Complaint";
         part_detail :=
           complaint
             (complaint.make [ {| emailAddress := email |} ]
                             timestamp
                             sg_event_id) |}.

(** One call of [SQS_CLIENT.pushAsync]. *)
Record Push : Type := { queue : JsVal; message : Notification }.

(** The queue service: whether the push of a message to a queue, the
    [index]-th of its batch, succeeds. *)
Definition Sqs : Type := nat -> JsVal -> Notification -> bool.

(** [Promise.all]: resolved with the values when every promise resolves,
    rejected as soon as one rejects. *)
Definition Promise_all {A : Type} (promises : list (Completion A))
  : Completion (list A) :=
  mapM (fun p => p) promises.

Section Handler.

(** [process.env]: the module throws when it is loaded with one of them
    missing or empty. *)
Variable AUTH : string.
Variable SQS_SUFFIX : string.

(** [JSON.parse]. *)
Variable JSON_parse : JsVal -> Completion JsVal.

(** ToNumber of a string, an array or an object. *)
Variable ToNumber_object : JsVal -> Completion Number.

Definition ToNumber (v : JsVal) : Completion Number :=
  match v with
  | JUndefined => Ret NaN
  | JNull => Ret (Num 0)
  | JBool b => Ret (Num (if b then 1 else 0))
  | JNum n => Ret (Num n)
  | _ => ToNumber_object v
  end.

Definition AUTH_HASH : list ascii :=
  list_ascii_of_string (sha256_base64 AUTH).

(** [QUEUES[notificationType]], for the keys the handler looks up: the
    three notification types, which are the properties of the object, and
    any key that is a property neither of it nor of [Object.prototype],
    where the lookup gives [undefined].  The properties that the object
    inherits ([toString], [constructor] and the like) are not modelled. *)
Definition QUEUES (notificationType : string) : JsVal :=
  if (notificationType =? "Bounce")%string
  then JStr ("fxa-email-bounce-" ++ SQS_SUFFIX)
  else if (notificationType =? "Complaint")%string
  then JStr ("fxa-email-complaint-" ++ SQS_SUFFIX)
  else if (notificationType =? "Delivery")%string
  then JStr ("fxa-email-delivery-" ++ SQS_SUFFIX)
  else JUndefined.

Definition authenticate (auth : JsVal) : Completion bool :=
  authHash <- createHash auth ;;
  Ret (reduce (equal_step authHash) AUTH_HASH true).


Definition mapTimestamp (timestamp : JsVal) : Completion string :=
  seconds <- ToNumber timestamp ;;
  Date.toISOString (Date.TimeClip (times seconds 1000)).

Definition marshallEvent (event : JsVal)
  : Completion (option Notification) :=
  if negb (truthy event) then Ret None else
  timestamp <- Get event "timestamp" ;;
  if negb (truthy timestamp) then Ret None else
  sg_message_id <- Get event "sg_message_id" ;;
  if negb (truthy sg_message_id) then Ret None else
  kind <- Get event "event" ;;
  if negb (truthy kind) then Ret None else
  timestamp <- mapTimestamp timestamp ;;
  mail <- marshallMailObject event timestamp ;;
  if strict_eq kind EVENTS.BOUNCE || strict_eq kind EVENTS.DROPPED
  then part <- marshallBounceEvent event timestamp ;;
       Ret (Some (spread mail part))
  else if strict_eq kind EVENTS.DELIVERED
  then part <- marshallDeliveryEvent event timestamp ;;
       Ret (Some (spread mail part))
  else if strict_eq kind EVENTS.SPAM
  then part <- marshallComplaintEvent event timestamp ;;
       Ret (Some (spread mail part))
  else Ret None.

Definition push_of (event : Notification) : Push :=
  {| queue := QUEUES (notificationType event); message := event |}.

(** [sendEvent], for the [index]-th notification of the batch: the
    promise is resolved with [undefined], the value of the [then]
    callback, or rejected with the error of the push, which the [catch]
    callback throws again. *)
Definition sendEvent (sqs : Sqs) (index : nat) (event : Notification)
  : Completion JsVal :=
  if sqs index (queue (push_of event)) event
  then Ret JUndefined
  else Throw PushError.

Fixpoint sendEvents (sqs : Sqs) (index : nat) (events : list Notification)
  : list (Completion JsVal) :=
  match events with
  | [] => []
  | event :: rest => sendEvent sqs index event :: sendEvents sqs (S index) rest
  end.

(** [processEvents]: the completion of the awaited promise, and the
    pushes made.  Every event is marshalled before the first push, and
    every push is made before the first one settles. *)
Definition processEvents (sqs : Sqs) (events : list JsVal)
  : Completion (list JsVal) * list Push :=
  match mapM marshallEvent events with
  | Throw e => (Throw e, [])
  | Ret marshalled =>
      let survivors := compact marshalled in
      (Promise_all (sendEvents sqs O survivors), map push_of survivors)
  end.

Definition Unauthorized : Response :=
  {| statusCode := 401; body := "Unauthorized"; isBase64Encoded := false |}.

Definition Processed (count : nat) : Response :=
  {| statusCode := 200;
     body := "Processed " ++ decimal count ++ " events";
     isBase64Encoded := false |}.

Definition InternalServerError : Response :=
  {| statusCode := 500;
     body := "Internal Server Error";
     isBase64Encoded := false |}.

(** Lines 41 to 56 of [main]: the authentication of a request of the API
    gateway and the batch of events, or the response returned at once. *)
Definition main_batch (data : JsVal) : Completion (Response + list JsVal) :=
  request_body <- Get data "body" ;;
  data' <-
    (if truthy request_body
     then
       queryStringParameters <- Get data "queryStringParameters" ;;
       if negb (truthy queryStringParameters)
       then Ret (inl Unauthorized)
       else
         auth <- Get queryStringParameters "auth" ;;
         authenticated <- authenticate auth ;;
         if negb authenticated
         then Ret (inl Unauthorized)
         else
           parsed <- JSON_parse request_body ;;
           Ret (inr parsed)
     else Ret (inr data)) ;;
  match data' with
  | inl response => Ret (inl response)
  | inr (JArr events) => Ret (inr events)
  | inr event => Ret (inr [ event ])
  end.

(** The [try] block of [main]. *)
Definition main_try (sqs : Sqs) (data : JsVal)
  : Completion Response * list Push :=
  match main_batch data with
  | Throw e => (Throw e, [])
  | Ret (inl response) => (Ret response, [])
  | Ret (inr events) =>
      match processEvents sqs events with
      | (Ret results, pushes) =>
          (Ret (Processed (List.length results)), pushes)
      | (Throw e, pushes) => (Throw e, pushes)
      end
  end.

(** [main]: the response, and the pushes made. *)
Definition main (sqs : Sqs) (data : JsVal) : Response * list Push :=
  match main_try sqs data with
  | (Ret response, pushes) => (response, pushes)
  | (Throw _, pushes) => (InternalServerError, pushes)
  end.

End Handler.

(** ** Definitions for the statements *)

(** The conjunction that the [reduce] accumulates: every character of
    [expected] against the character of [authHash] at the same index. *)
Fixpoint matches_from (expected : list ascii) (authHash : string)
  (index : nat) : bool :=
  match expected with
  | [] => true
  | char :: rest =>
      char_eq char (char_at authHash index)
      && matches_from rest authHash (S index)
  end.

(** The part of [s] before the first occurrence of [sep], and [s] itself
    when [sep] does not occur. *)
Fixpoint before (sep s : string) : string :=
  match s with
  | EmptyString => EmptyString
  | String c s' =>
      if prefix_of sep s then EmptyString else String c (before sep s')
  end.

(** The ways [marshallEvent] builds a notification. *)
Inductive built (event : JsVal) (iso : string) : JsVal -> Part -> Prop :=
| built_bounce kind part :
    kind = JStr EVENTS.BOUNCE \/ kind = JStr EVENTS.DROPPED ->
    marshallBounceEvent event iso = Ret part ->
    built event iso kind part
| built_delivery part :
    marshallDeliveryEvent event iso = Ret part ->
    built event iso (JStr EVENTS.DELIVERED) part
| built_complaint part :
    marshallComplaintEvent event iso = Ret part ->
    built event iso (JStr EVENTS.SPAM) part.


(** The fields of a raw event that the marshallers read. *)
Definition event_fields : list string :=
  [ "timestamp"; "sg_message_id"; "event"; "status"; "email";
    "sg_event_id"; "response" ].

(** The key of the sub-record of a notification is the one of its
    [notificationType]. *)
Definition well_typed (n : Notification) : Prop :=
  match detail n with
  | bounce _ => notificationType n = "Bounce"
  | delivery _ => notificationType n = "Delivery"
  | complaint _ => notificationType n = "Complaint"
  end.

(** The values of [bounceType] and of [bounceSubType]. *)
Definition bounce_types : list string := [ "Permanent"; "Transient" ].

Definition bounce_sub_types : list string :=
  [ "Suppressed"; "NoEmail"; "MailboxFull"; "MessageTooLarge";
    "ContentRejected"; "General" ].

(** The batch of a direct invocation: [data] itself when it is an array,
    and the array of [data] alone otherwise. *)
Definition batch_of (data : JsVal) : list JsVal :=
  match data with
  | JArr events => events
  | _ => [ data ]
  end.

(** ** A batch: three valid events, and one with no [event] *)

Module Batch.

Definition bounced : JsVal :=
  JObj [ ("email", JStr "a@example.com");
         ("timestamp", JNum 1609459200);
         ("sg_message_id",
          JStr "14c5d75ce93.dfd.64b469.filter0001.16648.5515E0B88.0");
         ("event", JStr "bounce");
         ("status", JStr "5.1.1");
         ("sg_event_id", JStr "e1") ].

Definition delivered : JsVal :=
  JObj [ ("email", JStr "b@example.com");
         ("timestamp", JNum 1609459201);
         ("sg_message_id", JStr "m2.filter0002");
         ("event", JStr "delivered");
         ("response", JStr "250 OK") ].

Definition reported : JsVal :=
  JObj [ ("email", JStr "c@example.com");
         ("timestamp", JNum 1609459202);
         ("sg_message_id", JStr "m3");
         ("event", JStr "spamreport");
         ("sg_event_id", JStr "e3") ].

Definition no_event : JsVal :=
  JObj [ ("email", JStr "d@example.com");
         ("timestamp", JNum 1609459203);
         ("sg_message_id", JStr "m4.filter0004") ].

Definition events : list JsVal :=
  [ bounced; delivered; no_event; reported ].

End Batch.

(** ** An environment for the examples

    The secret, the suffix of the queue names, a parser that reads the text
    of the empty array and rejects every other text, and two queue
    services. *)
Module Demo.

Definition AUTH : string := "correct horse battery staple".

Definition SQS_SUFFIX : string := "dev".

Definition JSON_parse (text : JsVal) : Completion JsVal :=
  if strict_eq text "[]" then Ret (JArr []) else Throw SyntaxError.

(** The timestamps of the examples are numbers. *)
Definition ToNumber_object (v : JsVal) : Completion Number := Ret NaN.

Definition all_sent : Sqs := fun _ _ _ => true.

(** The second push of a batch fails. *)
Definition second_fails : Sqs := fun index _ _ => negb (index =? 1)%nat.

Definition run : Sqs -> JsVal -> Response * list Push :=
  main AUTH SQS_SUFFIX JSON_parse ToNumber_object.

Definition bounce_notification : Notification :=
  {| mail :=
       mail.make "2021-01-01T00:00:00.000Z" "14c5d75ce93.dfd.64b469";
     notificationType := "Bounce";
     detail :=
       bounce
         (bounce.make "Permanent" "NoEmail"
                      [ {| emailAddress := JStr "a@example.com" |} ]
                      "2021-01-01T00:00:00.000Z"
                      (JStr "e1")) |}.

Definition delivery_notification : Notification :=
  {| mail := mail.make "2021-01-01T00:00:01.000Z" "m2";
     notificationType := "Delivery";
     detail :=
       delivery
         (delivery.make "2021-01-01T00:00:01.000Z"
                        [ JStr "b@example.com" ]
                        (JStr "250 OK")) |}.

Definition complaint_notification : Notification :=
  {| mail := mail.make "2021-01-01T00:00:02.000Z" "m3";
     notificationType := "Complaint";
     detail :=
       complaint
         (complaint.make [ {| emailAddress := JStr "c@example.com" |} ]
                         "2021-01-01T00:00:02.000Z"
                         (JStr "e3")) |}.

(** A timestamp in seconds beyond the latest [Date], 8.64e12 seconds
    after the epoch. *)
Definition too_late : Z := 10000000000000.

(** An event of a kind the handler does not know, with such a
    timestamp. *)
Definition opened_too_late : JsVal :=
  JObj [ ("email", JStr "a@example.com");
         ("timestamp", JNum too_late);
         ("sg_message_id", JStr "m5.filter0005");
         ("event", JStr "open") ].

(** An event of a kind the handler does not know, whose message id is a
    number. *)
Definition opened_numbered : JsVal :=
  JObj [ ("email", JStr "a@example.com");
         ("timestamp", JNum 1609459200);
         ("sg_message_id", JNum 5);
         ("event", JStr "open") ].

(** A delivery with such a timestamp. *)
Definition delivered_too_late : JsVal :=
  JObj [ ("email", JStr "b@example.com");
         ("timestamp", JNum too_late);
         ("sg_message_id", JStr "m6.filter0006");
         ("event", JStr "delivered");
         ("response", JStr "250 OK") ].

(** An event of a kind the handler does not know. *)
Definition opened : JsVal :=
  JObj [ ("email", JStr "a@example.com");
         ("timestamp", JNum 1609459200);
         ("sg_message_id", JStr "m8.filter0008");
         ("event", JStr "open") ].

(** A bounce with nothing but the three required fields. *)
Definition bare_bounce : JsVal :=
  JObj [ ("timestamp", JNum 1609459200);
         ("sg_message_id", JStr "m7");
         ("event", JStr "bounce") ].

Definition request (request_body auth : string) : JsVal :=
  JObj [ ("body", JStr request_body);
         ("queryStringParameters", JObj [ ("auth", JStr auth) ]) ].

End Demo.

(** * Checks of the model *)

Example K_first_and_last :
  nth 0 SHA256.K 0 = 0x428a2f98 /\ nth 63 SHA256.K 0 = 0xc67178f2.
Proof. split; reflexivity. Qed.

Example H0_first_and_last :
  SHA256.ha SHA256.H0 = 0x6a09e667 /\ SHA256.hh SHA256.H0 = 0x5be0cd19.
Proof. split; reflexivity. Qed.

Example sha256_abc :
  sha256_base64 "abc" = "ungWv48Bz+pBQUDeXa4iI7ADYaOWF3qctBD/YfIAFa0=".
Proof. vm_compute. reflexivity. Qed.

Example sha256_empty :
  sha256_base64 EmptyString = "47DEQpj8HBSa+/TImW+5JCeuQeRkm5NMpJWZG3hSuFU=".
Proof. vm_compute. reflexivity. Qed.

Example split_status : split "." "5.1.1" = [ "5"; "1"; "1" ].
Proof. reflexivity. Qed.

Example split_empty_parts :
  split "." "a..b." = [ "a"; EmptyString; "b"; EmptyString ].
Proof. reflexivity. Qed.

Example split_filter :
  split ".filter" "x.filter.filtery.filte" = [ "x"; EmptyString; "y.filte" ].
Proof. reflexivity. Qed.

Example iso_2021 :
  Date.toISOString (Date.TimeClip (times (Num 1609459200) 1000))
  = Ret "2021-01-01T00:00:00.000Z".
Proof. vm_compute. reflexivity. Qed.

Example iso_leap_day :
  Date.format 1709251199999 = "2024-02-29T23:59:59.999Z".
Proof. vm_compute. reflexivity. Qed.

Example iso_before_epoch :
  Date.format (-1) = "1969-12-31T23:59:59.999Z".
Proof. vm_compute. reflexivity. Qed.

Example iso_latest :
  Date.format 8640000000000000 = "+275760-09-13T00:00:00.000Z".
Proof. vm_compute. reflexivity. Qed.

Example iso_earliest :
  Date.format (-8640000000000000) = "-271821-04-20T00:00:00.000Z".
Proof. vm_compute. reflexivity. Qed.

(** [civil] agrees with DayFromYear on the first and the last day of every
    year from 1000 to 3000. *)
Example civil_year_bounds :
  forallb
    (fun i =>
       let y := 1000 + Z.of_nat i in
       match Date.civil (Date.DayFromYear y),
             Date.civil (Date.DayFromYear (y + 1) - 1) with
       | (y1, m1, d1), (y2, m2, d2) =>
           (y1 =? y) && (m1 =? 1) && (d1 =? 1)
           && (y2 =? y) && (m2 =? 12) && (d2 =? 31)
       end)
    (seq 0 2001) = true.
Proof. vm_compute. reflexivity. Qed.

(** * Properties *)

(** ** The digest *)

Lemma sha256_base64_length (s : string) :
  String.length (sha256_base64 s) = 44%nat.
Proof.
  unfold sha256_base64, SHA256.digest.
  generalize (SHA256.hash (bytes_of_string s)).
  intros st. reflexivity.
Qed.

Lemma createHash_string (s : string) :
  createHash (JStr s) = Ret (sha256_base64 s).
Proof. reflexivity. Qed.

(** From here on the digest is not unfolded: the proofs use its length
    only. *)
Opaque sha256_base64.

Lemma Ret_inj {A : Type} (x y : A) : Ret x = Ret y -> x = y.
Proof. intros H. now injection H. Qed.

(** ** The comparison of [authenticate] *)

Lemma reduce_from_equal_step (authHash : string) (expected : list ascii) :
  forall index equal,
    reduce_from (equal_step authHash) expected index equal
    = equal && matches_from expected authHash index.
Proof.
  induction expected as [| char rest IH]; intros index equal; simpl.
  - now rewrite andb_true_r.
  - rewrite IH. unfold equal_step. now rewrite andb_assoc.
Qed.

Lemma matches_from_tail (expected : list ascii) (c : ascii) (h : string) :
  forall index,
    matches_from expected (String c h) (S index)
    = matches_from expected h index.
Proof.
  induction expected as [| char rest IH]; intros index; simpl.
  - reflexivity.
  - now rewrite IH.
Qed.


Lemma matches_from_same_length (expected : list ascii) (h : string) :
  String.length h = List.length expected ->
  matches_from expected h 0 = true <-> h = string_of_list_ascii expected.
Proof.
  revert h. induction expected as [| char rest IH]; intros h Hlen.
  - destruct h; simpl in *; [tauto | discriminate].
  - destruct h as [| c h]; simpl in Hlen; [discriminate |].
    simpl. rewrite matches_from_tail, andb_true_iff, IH by lia.
    split.
    + intros [Hc ->]. apply Ascii.eqb_eq in Hc. now subst.
    + intros [= -> ->]. split; [apply Ascii.eqb_refl | reflexivity].
Qed.







(** ** The part of a string before a separator *)

Lemma append_empty_r (s : string) : (s ++ EmptyString)%string = s.
Proof. induction s; simpl; congruence. Qed.

Lemma append_assoc (a b c : string) :
  ((a ++ b) ++ c)%string = (a ++ (b ++ c))%string.
Proof. induction a; simpl; congruence. Qed.

Lemma rev_string_acc (s : string) :
  forall acc, rev_string acc s = (rev_string EmptyString s ++ acc)%string.
Proof.
  induction s as [| c s IH]; intros acc; simpl.
  - reflexivity.
  - rewrite IH, (IH (String c EmptyString)), append_assoc. reflexivity.
Qed.

Lemma prefix_of_iff (p s : string) :
  prefix_of p s = true <-> exists post, s = (p ++ post)%string.
Proof.
  revert s. induction p as [| a p IH]; intros s; simpl.
  - split; eauto.
  - destruct s as [| b s].
    + split; [discriminate | intros [post [=]]].
    + destruct (Ascii.eqb_spec a b) as [-> | Hneq].
      * rewrite IH. split; intros [post H]; exists post; congruence.
      * split; [discriminate | intros [post [= H _]]; congruence].
Qed.

Lemma split_from_hd (sep s : string) :
  forall cur,
    hd EmptyString (split_from sep s O cur)
    = (rev_string EmptyString cur ++ before sep s)%string.
Proof.
  induction s as [| c s IH]; intros cur.
  - simpl. now rewrite append_empty_r.
  - cbn [split_from before].
    destruct (prefix_of sep (String c s)).
    + simpl. now rewrite append_empty_r.
    + rewrite IH. simpl. rewrite (rev_string_acc cur), append_assoc.
      reflexivity.
Qed.

Lemma split_hd (sep s : string) : hd EmptyString (split sep s) = before sep s.
Proof. unfold split. now rewrite split_from_hd. Qed.

Lemma before_first_occurrence (sep : string) :
  forall pre post s,
    s = (pre ++ sep ++ post)%string ->
    (forall a b, s = (a ++ sep ++ b)%string ->
                 (String.length pre <= String.length a)%nat) ->
    before sep s = pre.
Proof.
  induction pre as [| c pre IH]; intros post s -> Hfirst.
  - simpl. destruct (sep ++ post)%string eqn:Hs; simpl; [reflexivity |].
    rewrite <- Hs.
    replace (prefix_of sep (sep ++ post)) with true; [reflexivity |].
    symmetry. apply prefix_of_iff. eauto.
  - simpl.
    destruct (prefix_of sep (String c (pre ++ sep ++ post))) eqn:Hprefix.
    + apply prefix_of_iff in Hprefix. destruct Hprefix as [b Hb].
      specialize (Hfirst EmptyString b Hb). simpl in Hfirst. lia.
    + f_equal. apply (IH post); [reflexivity |].
      intros a b Hab.
      specialize (Hfirst (String c a) b). simpl in Hfirst.
      rewrite Hab in Hfirst. specialize (Hfirst eq_refl). lia.
Qed.

Lemma before_no_occurrence (sep : string) :
  forall s,
    (forall a b, s <> (a ++ sep ++ b)%string) ->
    before sep s = s.
Proof.
  induction s as [| c s IH]; intros Hnone; simpl.
  - reflexivity.
  - destruct (prefix_of sep (String c s)) eqn:Hprefix.
    + apply prefix_of_iff in Hprefix. destruct Hprefix as [b Hb].
      exfalso. apply (Hnone EmptyString b). exact Hb.
    + f_equal. apply IH. intros a b Hab.
      apply (Hnone (String c a) b). simpl. now rewrite Hab.
Qed.

Lemma lookup_absent (key : string) (props : list (string * JsVal)) :
  (forall v, ~ In (key, v) props) -> lookup key props = JUndefined.
Proof.
  induction props as [| [k v] rest IH]; intros Habsent; simpl.
  - reflexivity.
  - destruct (String.eqb_spec k key) as [-> | Hneq].
    + exfalso. apply (Habsent v). now left.
    + apply IH. intros v' Hin. apply (Habsent v'). now right.
Qed.

Section HandlerProperties.

Variable AUTH : string.
Variable SQS_SUFFIX : string.
Variable JSON_parse : JsVal -> Completion JsVal.
Variable ToNumber_object : JsVal -> Completion Number.

Lemma AUTH_HASH_length : List.length (AUTH_HASH AUTH) = 44%nat.
Proof.
  unfold AUTH_HASH.
  rewrite <- (sha256_base64_length AUTH).
  generalize (sha256_base64 AUTH). intros s.
  induction s; simpl; congruence.
Qed.

Lemma authenticate_string (auth : string) :
  authenticate AUTH (JStr auth)
  = Ret (matches_from (AUTH_HASH AUTH) (sha256_base64 auth) 0).
Proof.
  unfold authenticate, reduce. rewrite createHash_string. unfold bind.
  now rewrite reduce_from_equal_step.
Qed.

(** C2. For every credential string [c], [authenticate(c)] returns, and
    it returns true if and only if the digest of [c], [createHash(c)],
    equals the digest of the configured secret, [createHash(AUTH)], of
    which [AUTH_HASH] holds the characters. *)
Theorem authenticate_iff_digests_equal (c : string) :
  (exists equal, authenticate AUTH (JStr c) = Ret equal)
  /\ (authenticate AUTH (JStr c) = Ret true
      <-> createHash (JStr c) = createHash (JStr AUTH))
  /\ (authenticate AUTH (JStr c) = Ret true
      <-> list_ascii_of_string (sha256_base64 c) = AUTH_HASH AUTH).
Proof.
  rewrite authenticate_string, !createHash_string.
  assert (Hiff : matches_from (AUTH_HASH AUTH) (sha256_base64 c) 0 = true
                 <-> sha256_base64 c = sha256_base64 AUTH).
  { rewrite matches_from_same_length.
    - unfold AUTH_HASH. rewrite string_of_list_ascii_of_string. tauto.
    - rewrite AUTH_HASH_length, sha256_base64_length. reflexivity. }
  split; [eexists; reflexivity |]. split.
  - split; intros H; apply Ret_inj in H.
    + apply Hiff in H. rewrite H. reflexivity.
    + f_equal. apply Hiff. exact H.
  - unfold AUTH_HASH. split; intros H.
    + apply Ret_inj, Hiff in H. rewrite H. reflexivity.
    + f_equal. apply Hiff.
      rewrite <- (string_of_list_ascii_of_string (sha256_base64 c)), H.
      apply string_of_list_ascii_of_string.
Qed.


(** ** Marshalling *)

Lemma Get_object (props : list (string * JsVal)) (key : string) :
  Get (JObj props) key = Ret (lookup key props).
Proof. reflexivity. Qed.

Lemma Get_truthy (v : JsVal) (key : string) :
  truthy v = true -> exists x, Get v key = Ret x.
Proof. destruct v; simpl; intros H; try discriminate; eauto. Qed.

Lemma strict_eq_true (v : JsVal) (s : string) :
  strict_eq v s = true <-> v = JStr s.
Proof.
  destruct v; simpl; try (split; [discriminate | intros [=]]).
  rewrite String.eqb_eq. split; [now intros -> | now intros [= ->]].
Qed.

Lemma marshallBounceEvent_shape (event : JsVal) (timestamp : string)
  (part : Part) :
  marshallBounceEvent event timestamp = Ret part ->
  exists b email sg_event_id,
    part = {| part_notificationType := "Bounce"; part_detail := bounce b |}
    /\ Get event "email" = Ret email
    /\ Get event "sg_event_id" = Ret sg_event_id
    /\ bounce.timestamp b = timestamp
    /\ bounce.bouncedRecipients b = [ {| emailAddress := email |} ]
    /\ bounce.feedbackId b = sg_event_id.
Proof.
  unfold marshallBounceEvent, bind.
  destruct (Get event "event") as [kind |]; [| discriminate].
  match goal with
  | |- match ?types with Ret _ => _ | Throw _ => _ end = _ -> _ =>
      destruct types as [[ty sub] |]; [| discriminate]
  end.
  destruct (Get event "email") as [email |]; [| discriminate].
  destruct (Get event "sg_event_id") as [sg_event_id |]; [| discriminate].
  intros H. apply Ret_inj in H. subst part.
  eexists _, email, sg_event_id. repeat split.
Qed.

Lemma marshallDeliveryEvent_shape (event : JsVal) (timestamp : string)
  (part : Part) :
  marshallDeliveryEvent event timestamp = Ret part ->
  exists email response,
    Get event "email" = Ret email
    /\ Get event "response" = Ret response
    /\ part = {| part_notificationType := "Delivery";
                 part_detail :=
                   delivery (delivery.make timestamp [ email ] response) |}.
Proof.
  unfold marshallDeliveryEvent, bind.
  destruct (Get event "email") as [email |]; [| discriminate].
  destruct (Get event "response") as [response |]; [| discriminate].
  intros H. apply Ret_inj in H. subst part. eauto.
Qed.

Lemma marshallComplaintEvent_shape (event : JsVal) (timestamp : string)
  (part : Part) :
  marshallComplaintEvent event timestamp = Ret part ->
  exists email sg_event_id,
    Get event "email" = Ret email
    /\ Get event "sg_event_id" = Ret sg_event_id
    /\ part = {| part_notificationType := "Complaint";
                 part_detail :=
                   complaint
                     (complaint.make [ {| emailAddress := email |} ]
                                     timestamp sg_event_id) |}.
Proof.
  unfold marshallComplaintEvent, bind.
  destruct (Get event "email") as [email |]; [| discriminate].
  destruct (Get event "sg_event_id") as [sg_event_id |]; [| discriminate].
  intros H. apply Ret_inj in H. subst part. eauto.
Qed.

Lemma marshallEvent_Some (event : JsVal) (n : Notification) :
  marshallEvent ToNumber_object event = Ret (Some n) ->
  exists raw sg_message_id kind iso m part,
    Get event "timestamp" = Ret raw /\ truthy raw = true
    /\ Get event "sg_message_id" = Ret sg_message_id
    /\ truthy sg_message_id = true
    /\ Get event "event" = Ret kind /\ truthy kind = true
    /\ mapTimestamp ToNumber_object raw = Ret iso
    /\ marshallMailObject event iso = Ret m
    /\ built event iso kind part
    /\ n = spread m part.
Proof.
  unfold marshallEvent.
  destruct (truthy event); simpl; [| discriminate].
  destruct (Get event "timestamp") as [raw |]; simpl; [| discriminate].
  destruct (truthy raw) eqn:Hraw; simpl; [| discriminate].
  destruct (Get event "sg_message_id") as [id |]; simpl; [| discriminate].
  destruct (truthy id) eqn:Hid; simpl; [| discriminate].
  destruct (Get event "event") as [kind |]; simpl; [| discriminate].
  destruct (truthy kind) eqn:Hkind; simpl; [| discriminate].
  destruct (mapTimestamp ToNumber_object raw) as [iso |] eqn:Hiso; simpl;
    [| discriminate].
  destruct (marshallMailObject event iso) as [m |] eqn:Hm; simpl;
    [| discriminate].
  destruct (strict_eq kind EVENTS.BOUNCE || strict_eq kind EVENTS.DROPPED)
    eqn:Hbounce.
  { destruct (marshallBounceEvent event iso) as [part |] eqn:Hpart; simpl;
      [| discriminate].
    intros H. apply Ret_inj in H. injection H as <-.
    exists raw, id, kind, iso, m, part.
    repeat (split; [reflexivity || assumption |]).
    split; [| reflexivity]. apply built_bounce; [| exact Hpart].
    apply orb_true_iff in Hbounce.
    rewrite !strict_eq_true in Hbounce. exact Hbounce. }
  destruct (strict_eq kind EVENTS.DELIVERED) eqn:Hdelivered.
  { destruct (marshallDeliveryEvent event iso) as [part |] eqn:Hpart; simpl;
      [| discriminate].
    intros H. apply Ret_inj in H. injection H as <-.
    exists raw, id, kind, iso, m, part.
    repeat (split; [reflexivity || assumption |]).
    split; [| reflexivity].
    apply strict_eq_true in Hdelivered. subst kind.
    now apply built_delivery. }
  destruct (strict_eq kind EVENTS.SPAM) eqn:Hspam.
  { destruct (marshallComplaintEvent event iso) as [part |] eqn:Hpart; simpl;
      [| discriminate].
    intros H. apply Ret_inj in H. injection H as <-.
    exists raw, id, kind, iso, m, part.
    repeat (split; [reflexivity || assumption |]).
    split; [| reflexivity].
    apply strict_eq_true in Hspam. subst kind.
    now apply built_complaint. }
  discriminate.
Qed.

Lemma marshallMailObject_string (event : JsVal) (timestamp id : string) :
  Get event "sg_message_id" = Ret (JStr id) ->
  marshallMailObject event timestamp
  = Ret (mail.make timestamp (before ".filter" id)).
Proof.
  intros Hid. unfold marshallMailObject. rewrite Hid. simpl.
  now rewrite split_hd.
Qed.

Lemma marshallMailObject_shape (event : JsVal) (timestamp : string)
  (m : mail.t) :
  marshallMailObject event timestamp = Ret m ->
  exists id,
    Get event "sg_message_id" = Ret (JStr id)
    /\ m = mail.make timestamp (before ".filter" id).
Proof.
  intros Hm.
  destruct (Get event "sg_message_id") as [v |] eqn:Hget;
    [| unfold marshallMailObject in Hm; rewrite Hget in Hm; discriminate].
  destruct v as [| | b | z | id | items | props];
    try (unfold marshallMailObject in Hm; rewrite Hget in Hm;
         discriminate).
  exists id. split; [reflexivity |].
  rewrite (marshallMailObject_string event timestamp id Hget) in Hm.
  now apply Ret_inj in Hm.
Qed.

Lemma mapTimestamp_number (seconds : Z) :
  Z.abs (seconds * 1000) <= 8640000000000000 ->
  mapTimestamp ToNumber_object (JNum seconds)
  = Ret (Date.format (seconds * 1000)).
Proof.
  intros Hrange. unfold mapTimestamp. simpl.
  apply Z.leb_le in Hrange. now rewrite Hrange.
Qed.

Lemma mapTimestamp_out_of_range (seconds : Z) :
  8640000000000000 < Z.abs (seconds * 1000) ->
  mapTimestamp ToNumber_object (JNum seconds) = Throw RangeError.
Proof.
  intros Hrange. unfold mapTimestamp. simpl.
  apply Z.leb_gt in Hrange. now rewrite Hrange.
Qed.

Lemma built_timestamp (event : JsVal) (iso : string) (kind : JsVal)
  (part : Part) :
  built event iso kind part -> detail_timestamp (part_detail part) = iso.
Proof.
  intros [kind' part' _ H | part' H | part' H].
  - apply marshallBounceEvent_shape in H.
    destruct H as (b & email & id & -> & _ & _ & Hts & _). exact Hts.
  - apply marshallDeliveryEvent_shape in H.
    destruct H as (email & response & _ & _ & ->). reflexivity.
  - apply marshallComplaintEvent_shape in H.
    destruct H as (email & id & _ & _ & ->). reflexivity.
Qed.



(** [marshallEvent] on a record whose timestamp is a number of seconds
    within the range of [Date] and whose [sg_message_id] is a string. *)
Lemma marshallEvent_record (props : list (string * JsVal))
  (seconds : Z) (id : string) :
  lookup "timestamp" props = JNum seconds ->
  seconds <> 0 ->
  Z.abs (seconds * 1000) <= 8640000000000000 ->
  lookup "sg_message_id" props = JStr id ->
  id <> EmptyString ->
  truthy (lookup "event" props) = true ->
  let event := JObj props in
  let kind := lookup "event" props in
  let iso := Date.format (seconds * 1000) in
  let m := mail.make iso (before ".filter" id) in
  marshallEvent ToNumber_object event
  = if strict_eq kind EVENTS.BOUNCE || strict_eq kind EVENTS.DROPPED
    then part <- marshallBounceEvent event iso ;;
         Ret (Some (spread m part))
    else if strict_eq kind EVENTS.DELIVERED
    then part <- marshallDeliveryEvent event iso ;;
         Ret (Some (spread m part))
    else if strict_eq kind EVENTS.SPAM
    then part <- marshallComplaintEvent event iso ;;
         Ret (Some (spread m part))
    else Ret None.
Proof.
  intros Hts Hnz Hrange Hid Hne Hkind event kind iso m.
  apply Z.eqb_neq in Hnz. apply String.eqb_neq in Hne.
  unfold marshallEvent. subst event kind. rewrite !Get_object.
  cbn [truthy negb bind].
  rewrite Hkind, Hts, Hid. cbn [truthy negb]. rewrite Hnz, Hne.
  cbn [negb].
  rewrite (mapTimestamp_number seconds Hrange). cbn [bind].
  rewrite (marshallMailObject_string (JObj props) _ id)
    by (rewrite Get_object, Hid; reflexivity).
  reflexivity.
Qed.

Lemma marshallBounceEvent_returns (props : list (string * JsVal))
  (timestamp : string) :
  (strict_eq (lookup "event" props) EVENTS.DROPPED = false ->
   truthy (lookup "status" props) = true ->
   exists status, lookup "status" props = JStr status) ->
  exists part, marshallBounceEvent (JObj props) timestamp = Ret part.
Proof.
  intros Hstatus. unfold marshallBounceEvent. rewrite !Get_object.
  cbn [bind].
  destruct (strict_eq (lookup "event" props) EVENTS.DROPPED);
    [eexists; reflexivity |].
  destruct (truthy (lookup "status" props)); [| eexists; reflexivity].
  destruct (Hstatus eq_refl eq_refl) as [status ->].
  unfold call_split, bind.
  destruct (List.length (split "." status) =? 3)%nat; eexists; reflexivity.
Qed.

(** C4, as the code has it.  A raw event in which [timestamp],
    [sg_message_id] or [event] is missing or falsy is marshalled to
    [undefined], and nothing is thrown.  So is a raw event whose [event]
    is none of 'bounce', 'delivered', 'dropped' and 'spamreport', when its
    timestamp is an integer of seconds within the range of [Date] and its
    [sg_message_id] is a string: the timestamp and the message id are
    converted before the [switch] on the event.  An item of the batch
    that is not an object has none of the three fields, and is marshalled
    to [undefined] too. *)
Theorem marshallEvent_absent (props : list (string * JsVal)) :
  (truthy (lookup "timestamp" props) = false
   \/ truthy (lookup "sg_message_id" props) = false
   \/ truthy (lookup "event" props) = false ->
   marshallEvent ToNumber_object (JObj props) = Ret None)
  /\ (forall seconds id,
        lookup "timestamp" props = JNum seconds ->
        Z.abs (seconds * 1000) <= 8640000000000000 ->
        lookup "sg_message_id" props = JStr id ->
        lookup "event" props <> JStr "bounce" ->
        lookup "event" props <> JStr "delivered" ->
        lookup "event" props <> JStr "dropped" ->
        lookup "event" props <> JStr "spamreport" ->
        marshallEvent ToNumber_object (JObj props) = Ret None)
  /\ (forall item,
        (forall fields, item <> JObj fields) ->
        marshallEvent ToNumber_object item = Ret None).
Proof.
  assert (Hfalsy :
            truthy (lookup "timestamp" props) = false
            \/ truthy (lookup "sg_message_id" props) = false
            \/ truthy (lookup "event" props) = false ->
            marshallEvent ToNumber_object (JObj props) = Ret None).
  { intros Hmissing. unfold marshallEvent. rewrite !Get_object.
    cbn [truthy negb bind].
    destruct (truthy (lookup "timestamp" props)); [| reflexivity].
    destruct (truthy (lookup "sg_message_id" props)); [| reflexivity].
    destruct (truthy (lookup "event" props)); [| reflexivity].
    destruct Hmissing as [H | [H | H]]; discriminate. }
  split; [exact Hfalsy |].
  split;
    [| intros item Hitem; unfold marshallEvent;
       destruct item as [| | [|] | z | s | items | fields];
       try reflexivity;
       [ cbn; now destruct (z =? 0)
       | cbn; now destruct (s =? EmptyString)%string
       | now destruct (Hitem fields) ] ].
  intros seconds id Hts Hrange Hid Hb Hd Hdr Hs.
  destruct (truthy (lookup "timestamp" props)) eqn:Ht; [| auto].
  destruct (truthy (lookup "sg_message_id" props)) eqn:Hm; [| auto].
  destruct (truthy (lookup "event" props)) eqn:Hk; [| auto].
  rewrite (marshallEvent_record props seconds id); try assumption.
  - destruct (strict_eq (lookup "event" props) EVENTS.BOUNCE) eqn:E1;
      [apply strict_eq_true in E1; contradiction |].
    destruct (strict_eq (lookup "event" props) EVENTS.DROPPED) eqn:E2;
      [apply strict_eq_true in E2; contradiction |].
    destruct (strict_eq (lookup "event" props) EVENTS.DELIVERED) eqn:E3;
      [apply strict_eq_true in E3; contradiction |].
    destruct (strict_eq (lookup "event" props) EVENTS.SPAM) eqn:E4;
      [apply strict_eq_true in E4; contradiction |].
    reflexivity.
  - rewrite Hts in Ht. simpl in Ht. intros ->. discriminate.
  - rewrite Hid in Hm. simpl in Hm. intros ->. discriminate.
Qed.

(** C5. The [mail.messageId] of every marshalled event is the part of
    [sg_message_id] strictly before the first occurrence of '.filter',
    and the whole of [sg_message_id] when '.filter' does not occur in it;
    '14c5d75ce93.dfd.64b469.filter0001.16648.5515E0B88.0' gives
    '14c5d75ce93.dfd.64b469'. *)
Theorem messageId_before_filter (event : JsVal) (n : Notification) :
  marshallEvent ToNumber_object event = Ret (Some n) ->
  exists sg_message_id,
    Get event "sg_message_id" = Ret (JStr sg_message_id)
    /\ (forall pre post,
          sg_message_id = (pre ++ ".filter" ++ post)%string ->
          (forall a b,
              sg_message_id = (a ++ ".filter" ++ b)%string ->
              (String.length pre <= String.length a)%nat) ->
          mail.messageId (mail n) = pre)
    /\ ((forall a b, sg_message_id <> (a ++ ".filter" ++ b)%string) ->
        mail.messageId (mail n) = sg_message_id)
    /\ (sg_message_id
        = "14c5d75ce93.dfd.64b469.filter0001.16648.5515E0B88.0" ->
        mail.messageId (mail n) = "14c5d75ce93.dfd.64b469").
Proof.
  intros Hn.
  destruct (marshallEvent_Some event n Hn)
    as (raw & id' & kind & iso & m & part & _ & _ & _ & _ & _ & _ & _
        & Hm & _ & ->).
  destruct (marshallMailObject_shape event iso m Hm) as (id & Hid & ->).
  exists id. split; [exact Hid |]. cbn [spread mail mail.messageId].
  repeat split.
  - intros pre post Hsplit Hfirst.
    now apply (before_first_occurrence ".filter" pre post).
  - apply before_no_occurrence.
  - intros ->. reflexivity.
Qed.

(** C9. Every notification that [marshallEvent] produces carries one ISO
    8601 string, the one [mapTimestamp] computes from the [timestamp] of
    the raw event multiplied by 1000, both in [mail.timestamp] and in
    the [timestamp] of its [bounce], [delivery] or [complaint]
    sub-record. *)
Theorem timestamp_shared (event : JsVal) (n : Notification) :
  marshallEvent ToNumber_object event = Ret (Some n) ->
  exists raw iso,
    Get event "timestamp" = Ret raw
    /\ mapTimestamp ToNumber_object raw = Ret iso
    /\ mail.timestamp (mail n) = iso
    /\ detail_timestamp (detail n) = iso
    /\ (forall seconds,
          raw = JNum seconds -> iso = Date.format (seconds * 1000)).
Proof.
  intros Hn.
  destruct (marshallEvent_Some event n Hn)
    as (raw & id' & kind & iso & m & part & Hraw & _ & _ & _ & _ & _
        & Hiso & Hm & Hbuilt & ->).
  destruct (marshallMailObject_shape event iso m Hm) as (id & _ & ->).
  exists raw, iso. cbn [spread mail detail mail.timestamp].
  repeat split; try assumption.
  - exact (built_timestamp event iso kind part Hbuilt).
  - intros seconds ->. unfold mapTimestamp in Hiso. simpl in Hiso.
    destruct (Z.abs (seconds * 1000) <=? 8640000000000000);
      simpl in Hiso; [now apply Ret_inj in Hiso | discriminate].
Qed.

(** C10, as the code has it.  For every input record whose [timestamp]
    is a non-zero integer of seconds within the range of [Date]
    (|timestamp * 1000| <= 8.64e15), whose [sg_message_id] is a non-empty
    string, whose [event] is truthy and whose [status], when truthy on a
    'bounce' event, is a string, [marshallEvent] returns.  The [email],
    [response] and [sg_event_id] of the input go to the output as they
    are: a missing one is read as [undefined], and raises nothing. *)
Theorem marshallEvent_returns (props : list (string * JsVal))
  (seconds : Z) (id : string) :
  lookup "timestamp" props = JNum seconds ->
  seconds <> 0 ->
  Z.abs (seconds * 1000) <= 8640000000000000 ->
  lookup "sg_message_id" props = JStr id ->
  id <> EmptyString ->
  truthy (lookup "event" props) = true ->
  (lookup "event" props = JStr "bounce" ->
   truthy (lookup "status" props) = true ->
   exists status, lookup "status" props = JStr status) ->
  (exists result,
      marshallEvent ToNumber_object (JObj props) = Ret result
      /\ forall n,
          result = Some n ->
          match detail n with
          | bounce b =>
              bounce.bouncedRecipients b
              = [ {| emailAddress := lookup "email" props |} ]
              /\ bounce.feedbackId b = lookup "sg_event_id" props
          | delivery d =>
              delivery.recipients d = [ lookup "email" props ]
              /\ delivery.smtpResponse d = lookup "response" props
          | complaint c =>
              complaint.complainedRecipients c
              = [ {| emailAddress := lookup "email" props |} ]
              /\ complaint.feedbackId c = lookup "sg_event_id" props
          end)
  /\ (forall key,
        (forall v, ~ In (key, v) props) -> lookup key props = JUndefined).
Proof.
  intros Hts Hnz Hrange Hid Hne Hkind Hstatus.
  split; [| intros key; apply lookup_absent].
  rewrite (marshallEvent_record props seconds id) by assumption.
  destruct (strict_eq (lookup "event" props) EVENTS.BOUNCE
            || strict_eq (lookup "event" props) EVENTS.DROPPED) eqn:Hb.
  { destruct (marshallBounceEvent_returns props
                (Date.format (seconds * 1000))) as [part Hpart].
    { intros Hnd Htruthy. apply Hstatus; [| exact Htruthy].
      rewrite Hnd, orb_false_r in Hb. now apply strict_eq_true. }
    rewrite Hpart. cbn [bind]. eexists. split; [reflexivity |].
    intros n Hn. injection Hn as <-.
    apply marshallBounceEvent_shape in Hpart.
    destruct Hpart as (b & email & fid & -> & He & Hf & _ & Hr & Hfid).
    rewrite Get_object in He, Hf.
    apply Ret_inj in He. apply Ret_inj in Hf. subst email fid.
    cbn. auto. }
  destruct (strict_eq (lookup "event" props) EVENTS.DELIVERED).
  { unfold marshallDeliveryEvent. rewrite !Get_object. cbn [bind].
    eexists. split; [reflexivity |].
    intros n Hn. injection Hn as <-. cbn. auto. }
  destruct (strict_eq (lookup "event" props) EVENTS.SPAM).
  { unfold marshallComplaintEvent. rewrite !Get_object. cbn [bind].
    eexists. split; [reflexivity |].
    intros n Hn. injection Hn as <-. cbn. auto. }
  eexists. split; [reflexivity |]. intros n Hn. discriminate.
Qed.

(** ** Dispatch *)


Lemma Promise_all_failed (sqs : Sqs) (events : list Notification) :
  forall first index n,
    nth_error events index = Some n ->
    sqs (first + index)%nat (QUEUES SQS_SUFFIX (notificationType n)) n
    = false ->
    Promise_all (sendEvents SQS_SUFFIX sqs first events) = Throw PushError.
Proof.
  unfold Promise_all.
  induction events as [| event rest IH]; intros first index n Hn Hfailed.
  - destruct index; discriminate.
  - simpl. unfold sendEvent at 1, push_of. cbn [queue].
    destruct (sqs first (QUEUES SQS_SUFFIX (notificationType event)) event)
      eqn:Hevent; cbn [bind]; [| reflexivity].
    destruct index as [| index]; simpl in Hn.
    + injection Hn as ->. rewrite Nat.add_0_r in Hfailed. congruence.
    + rewrite (IH (S first) index n Hn); [reflexivity |].
      now rewrite Nat.add_succ_r in Hfailed.
Qed.

Lemma mapM_throws {A B : Type} (f : A -> Completion B) (l : list A)
  (x : A) :
  In x l -> throws (f x) -> throws (mapM f l).
Proof.
  induction l as [| y rest IH]; intros Hin Hx; [contradiction |].
  simpl. destruct (f y) as [b |] eqn:Hy; cbn [bind].
  - destruct Hin as [-> | Hin].
    + destruct Hx as [e He]. congruence.
    + destruct (IH Hin Hx) as [e ->]. now exists e.
  - now exists e.
Qed.

Lemma authenticate_secret : authenticate AUTH (JStr AUTH) = Ret true.
Proof.
  rewrite authenticate_string. f_equal.
  apply matches_from_same_length.
  - now rewrite AUTH_HASH_length, sha256_base64_length.
  - unfold AUTH_HASH. now rewrite string_of_list_ascii_of_string.
Qed.


(** The batch of a direct invocation. *)
Lemma main_batch_direct (events : list JsVal) :
  main_batch AUTH JSON_parse (JArr events) = Ret (inr events).
Proof. reflexivity. Qed.

Lemma main_when_batch_throws (sqs : Sqs) (data : JsVal)
  (events : list JsVal) (event : JsVal) :
  main_batch AUTH JSON_parse data = Ret (inr events) ->
  In event events ->
  throws (marshallEvent ToNumber_object event) ->
  main AUTH SQS_SUFFIX JSON_parse ToNumber_object sqs data
  = (InternalServerError, []).
Proof.
  intros Hbatch Hin Hthrows.
  destruct (mapM_throws _ events event Hin Hthrows) as [e He].
  unfold main, main_try, processEvents.
  now rewrite Hbatch, He.
Qed.

Lemma main_when_push_fails (sqs : Sqs) (data : JsVal)
  (events : list JsVal) (marshalled : list (option Notification))
  (index : nat) (n : Notification) :
  main_batch AUTH JSON_parse data = Ret (inr events) ->
  mapM (marshallEvent ToNumber_object) events = Ret marshalled ->
  nth_error (compact marshalled) index = Some n ->
  sqs index (QUEUES SQS_SUFFIX (notificationType n)) n = false ->
  main AUTH SQS_SUFFIX JSON_parse ToNumber_object sqs data
  = (InternalServerError, map (push_of SQS_SUFFIX) (compact marshalled)).
Proof.
  intros Hbatch Hmarshalled Hn Hfailed.
  unfold main, main_try, processEvents.
  rewrite Hbatch, Hmarshalled.
  now rewrite (Promise_all_failed sqs (compact marshalled) O index n).
Qed.



(** ** The handler *)

Lemma main_unauthorized_no_query (sqs : Sqs) (data : JsVal)
  (request_body queryStringParameters : JsVal) :
  Get data "body" = Ret request_body ->
  truthy request_body = true ->
  Get data "queryStringParameters" = Ret queryStringParameters ->
  truthy queryStringParameters = false ->
  main AUTH SQS_SUFFIX JSON_parse ToNumber_object sqs data
  = (Unauthorized, []).
Proof.
  intros Hbody Htruthy Hquery Hfalsy.
  unfold main, main_try, main_batch.
  rewrite Hbody. cbn [bind]. rewrite Htruthy, Hquery. cbn [bind].
  rewrite Hfalsy. reflexivity.
Qed.

Lemma main_unauthorized_rejected (sqs : Sqs) (data : JsVal)
  (request_body queryStringParameters auth : JsVal) :
  Get data "body" = Ret request_body ->
  truthy request_body = true ->
  Get data "queryStringParameters" = Ret queryStringParameters ->
  Get queryStringParameters "auth" = Ret auth ->
  authenticate AUTH auth = Ret false ->
  main AUTH SQS_SUFFIX JSON_parse ToNumber_object sqs data
  = (Unauthorized, []).
Proof.
  intros Hbody Htruthy Hquery Hauth Hrejected.
  unfold main, main_try, main_batch.
  rewrite Hbody. cbn [bind]. rewrite Htruthy, Hquery. cbn [bind].
  destruct (truthy queryStringParameters); [| reflexivity].
  cbn [negb]. rewrite Hauth. cbn [bind]. rewrite Hrejected. reflexivity.
Qed.

(** [authenticate] throws on a credential that is not a string, as
    [queryStringParameters.auth] is when the request has query
    parameters and none of them is [auth]. *)
Lemma authenticate_throws (auth : JsVal) :
  (forall s, auth <> JStr s) -> authenticate AUTH auth = Throw TypeError.
Proof.
  intros Hauth. unfold authenticate.
  destruct auth; try reflexivity. now destruct (Hauth s).
Qed.

(** C1, at the input where the code departs from it.  A request with a
    body and with query parameters, none of which is [auth]:
    [authenticate(undefined)] throws in [hash.update], and the handler
    answers 500 'Internal Server Error', not 401 'Unauthorized'.  No push
    is made. *)
Theorem main_auth_parameter_absent (sqs : Sqs) :
  main AUTH SQS_SUFFIX JSON_parse ToNumber_object sqs
    (JObj [ ("body", JStr "[]"); ("queryStringParameters", JObj []) ])
  = ({| statusCode := 500;
        body := "Internal Server Error";
        isBase64Encoded := false |}, []).
Proof. reflexivity. Qed.


(** C7. Whatever is thrown in the [try] block of [main], the handler
    answers 500 with the body 'Internal Server Error', which tells nothing
    of what was thrown.  So it does when [JSON.parse] throws on the body,
    when [marshallEvent] throws on an event and when one push fails.  When
    [JSON.parse] or [marshallEvent] throws, no push has been made; when
    one push fails, every event kept has been pushed, and the answer is
    500 all the same. *)
Theorem main_internal_server_error (sqs : Sqs) (data : JsVal) :
  let failed :=
    {| statusCode := 500;
       body := "Internal Server Error";
       isBase64Encoded := false |} in
  (forall e pushes,
      main_try AUTH SQS_SUFFIX JSON_parse ToNumber_object sqs data
      = (Throw e, pushes) ->
      main AUTH SQS_SUFFIX JSON_parse ToNumber_object sqs data
      = (failed, pushes))
  /\ (forall request_body queryStringParameters auth,
      Get data "body" = Ret request_body ->
      truthy request_body = true ->
      Get data "queryStringParameters" = Ret queryStringParameters ->
      truthy queryStringParameters = true ->
      Get queryStringParameters "auth" = Ret auth ->
      authenticate AUTH auth = Ret true ->
      throws (JSON_parse request_body) ->
      main AUTH SQS_SUFFIX JSON_parse ToNumber_object sqs data
      = (failed, []))
  /\ (forall events event,
        main_batch AUTH JSON_parse data = Ret (inr events) ->
        In event events ->
        throws (marshallEvent ToNumber_object event) ->
        main AUTH SQS_SUFFIX JSON_parse ToNumber_object sqs data
        = (failed, []))
  /\ (forall events marshalled index n,
        main_batch AUTH JSON_parse data = Ret (inr events) ->
        mapM (marshallEvent ToNumber_object) events = Ret marshalled ->
        nth_error (compact marshalled) index = Some n ->
        sqs index (QUEUES SQS_SUFFIX (notificationType n)) n = false ->
        main AUTH SQS_SUFFIX JSON_parse ToNumber_object sqs data
        = (failed, map (push_of SQS_SUFFIX) (compact marshalled))).
Proof.
  intros failed. repeat split.
  - intros e pushes Hthrown. unfold main. now rewrite Hthrown.
  - intros request_body queryStringParameters auth
      Hbody Htruthy Hquery Hq Hauth Hok [e He].
    unfold main, main_try, main_batch.
    rewrite Hbody. cbn [bind]. rewrite Htruthy, Hquery. cbn [bind].
    rewrite Hq. cbn [negb]. rewrite Hauth. cbn [bind]. rewrite Hok.
    cbn [bind negb]. rewrite He. reflexivity.
  - intros events event. apply main_when_batch_throws.
  - intros events marshalled index n. apply main_when_push_fails.
Qed.

End HandlerProperties.

Example marshallEvent_bounced :
  marshallEvent Demo.ToNumber_object Batch.bounced
  = Ret (Some Demo.bounce_notification).
Proof. reflexivity. Qed.

Example marshallEvent_delivered :
  marshallEvent Demo.ToNumber_object Batch.delivered
  = Ret (Some Demo.delivery_notification).
Proof. reflexivity. Qed.

Example marshallEvent_reported :
  marshallEvent Demo.ToNumber_object Batch.reported
  = Ret (Some Demo.complaint_notification).
Proof. reflexivity. Qed.

Example marshallEvent_no_event :
  marshallEvent Demo.ToNumber_object Batch.no_event = Ret None.
Proof. reflexivity. Qed.

Example main_batch_of_four :
  Demo.run Demo.all_sent (JArr Batch.events)
  = ({| statusCode := 200;
        body := "Processed 3 events";
        isBase64Encoded := false |},
     [ {| queue := JStr "fxa-email-bounce-dev";
          message := Demo.bounce_notification |};
       {| queue := JStr "fxa-email-delivery-dev";
          message := Demo.delivery_notification |};
       {| queue := JStr "fxa-email-complaint-dev";
          message := Demo.complaint_notification |} ]).
Proof. reflexivity. Qed.

Example main_wrong_credential :
  Demo.run Demo.all_sent (Demo.request "[]" "guess")
  = ({| statusCode := 401;
        body := "Unauthorized";
        isBase64Encoded := false |}, []).
Proof. vm_compute. reflexivity. Qed.

Example main_right_credential :
  Demo.run Demo.all_sent (Demo.request "[]" Demo.AUTH)
  = ({| statusCode := 200;
        body := "Processed 0 events";
        isBase64Encoded := false |}, []).
Proof. vm_compute. reflexivity. Qed.

Example main_no_query_parameters :
  Demo.run Demo.all_sent
    (JObj [ ("body", JStr "[]"); ("queryStringParameters", JNull) ])
  = ({| statusCode := 401;
        body := "Unauthorized";
        isBase64Encoded := false |}, []).
Proof. reflexivity. Qed.

(** ** The theorems at these examples *)

Lemma authenticate_iff_digests_equal_witness :
  createHash (JStr Demo.AUTH) = createHash (JStr Demo.AUTH)
  /\ authenticate Demo.AUTH (JStr Demo.AUTH) = Ret true.
Proof.
  split; [reflexivity |].
  apply (proj2 (proj1 (proj2 (authenticate_iff_digests_equal
                                Demo.AUTH Demo.AUTH)))).
  reflexivity.
Defined.



Lemma marshallEvent_absent_witness :
  (truthy (lookup "event" (props_of Batch.no_event)) = false
   /\ marshallEvent Demo.ToNumber_object Batch.no_event = Ret None)
  /\ (lookup "event" (props_of Demo.opened) = JStr "open"
      /\ marshallEvent Demo.ToNumber_object Demo.opened = Ret None).
Proof.
  split; (split; [reflexivity |]).
  - apply (proj1 (marshallEvent_absent Demo.ToNumber_object
                    (props_of Batch.no_event))).
    right. right. reflexivity.
  - apply (proj1 (proj2 (marshallEvent_absent Demo.ToNumber_object
                             (props_of Demo.opened)))
             1609459200 "m8.filter0008");
      try reflexivity; discriminate.
Defined.

Lemma messageId_before_filter_witness :
  marshallEvent Demo.ToNumber_object Batch.bounced
  = Ret (Some Demo.bounce_notification)
  /\ mail.messageId (mail Demo.bounce_notification) = "14c5d75ce93.dfd.64b469".
Proof.
  split; [reflexivity |].
  destruct (messageId_before_filter Demo.ToNumber_object Batch.bounced
              Demo.bounce_notification eq_refl)
    as (id & Hid & _ & _ & Hexample).
  apply Hexample. apply Ret_inj in Hid. now injection Hid.
Defined.

Lemma timestamp_shared_witness :
  marshallEvent Demo.ToNumber_object Batch.delivered
  = Ret (Some Demo.delivery_notification)
  /\ exists raw iso,
      Get Batch.delivered "timestamp" = Ret raw
      /\ mapTimestamp Demo.ToNumber_object raw = Ret iso
      /\ mail.timestamp (mail Demo.delivery_notification) = iso
      /\ detail_timestamp (detail Demo.delivery_notification) = iso
      /\ (forall seconds,
            raw = JNum seconds -> iso = Date.format (seconds * 1000)).
Proof.
  split; [reflexivity |].
  exact (timestamp_shared Demo.ToNumber_object Batch.delivered
           Demo.delivery_notification eq_refl).
Defined.

Lemma marshallEvent_returns_witness :
  exists n,
    marshallEvent Demo.ToNumber_object Demo.bare_bounce = Ret (Some n)
    /\ match detail n with
       | bounce b =>
           bounce.bouncedRecipients b = [ {| emailAddress := JUndefined |} ]
           /\ bounce.feedbackId b = JUndefined
       | _ => False
       end.
Proof.
  destruct (marshallEvent_returns Demo.ToNumber_object
              (props_of Demo.bare_bounce) 1609459200 "m7")
    as [(result & Hresult & Hfields) _];
    try reflexivity; try discriminate.
  destruct result as [n |]; [| discriminate Hresult].
  exists n. split; [exact Hresult |].
    specialize (Hfields n eq_refl).
    apply Ret_inj in Hresult. injection Hresult as <-. exact Hfields.
Defined.


Lemma main_internal_server_error_witness :
  Demo.run Demo.all_sent (Demo.request "{" Demo.AUTH)
  = (InternalServerError, [])
  /\ Demo.run Demo.all_sent
       (JArr [ Batch.bounced; Demo.delivered_too_late ])
     = (InternalServerError, [])
  /\ Demo.run Demo.second_fails (JArr Batch.events)
     = (InternalServerError,
        map (push_of Demo.SQS_SUFFIX)
            [ Demo.bounce_notification; Demo.delivery_notification;
              Demo.complaint_notification ]).
Proof.
  split; [| split].
  - exact (proj1 (proj2 (main_internal_server_error Demo.AUTH
                    Demo.SQS_SUFFIX Demo.JSON_parse
                    Demo.ToNumber_object Demo.all_sent
                    (Demo.request "{" Demo.AUTH)))
             (JStr "{") (JObj [ ("auth", JStr Demo.AUTH) ])
             (JStr Demo.AUTH)
             eq_refl eq_refl eq_refl eq_refl eq_refl
             (authenticate_secret Demo.AUTH)
             (ex_intro _ SyntaxError eq_refl)).
  - apply (proj1 (proj2 (proj2 (main_internal_server_error Demo.AUTH
                           Demo.SQS_SUFFIX Demo.JSON_parse
                           Demo.ToNumber_object Demo.all_sent
                           (JArr [ Batch.bounced;
                                   Demo.delivered_too_late ]))))
             [ Batch.bounced; Demo.delivered_too_late ]
             Demo.delivered_too_late).
    + reflexivity.
    + right. left. reflexivity.
    + exists RangeError. reflexivity.
  - exact (proj2 (proj2 (proj2 (main_internal_server_error Demo.AUTH
                           Demo.SQS_SUFFIX Demo.JSON_parse
                           Demo.ToNumber_object Demo.second_fails
                           (JArr Batch.events))))
             Batch.events
             [ Some Demo.bounce_notification;
               Some Demo.delivery_notification; None;
               Some Demo.complaint_notification ]
             1%nat Demo.delivery_notification eq_refl eq_refl eq_refl eq_refl).
Defined.

(** ** Where the code departs from a claim *)

(** C4 as stated fails: an event whose [event] is not one of the four
    known values is not marshalled to [undefined] when its timestamp is
    beyond the range of [Date] or its [sg_message_id] is not a string;
    [toISOString] or the call of [split] throws before the [switch]. *)
Lemma unknown_event_throws :
  marshallEvent Demo.ToNumber_object Demo.opened_too_late
  = Throw RangeError
  /\ marshallEvent Demo.ToNumber_object Demo.opened_numbered
     = Throw TypeError.
Proof. split; reflexivity. Qed.


(** C10 as stated fails: a record whose [timestamp], [sg_message_id] and
    [event] are present and truthy, with a string for [sg_message_id],
    makes [marshallEvent] throw when the timestamp is beyond the range of
    [Date]. *)
Lemma truthy_fields_throw :
  truthy (lookup "timestamp" (props_of Demo.delivered_too_late)) = true
  /\ truthy (lookup "sg_message_id" (props_of Demo.delivered_too_late))
     = true
  /\ truthy (lookup "event" (props_of Demo.delivered_too_late)) = true
  /\ marshallEvent Demo.ToNumber_object Demo.delivered_too_late
     = Throw RangeError.
Proof. repeat split; reflexivity. Qed.

(** * More properties of the handler *)

(** ** The digest and the credential *)

Transparent sha256_base64.

Lemma sha256_base64_last (s : string) :
  String.get 43 (sha256_base64 s) = Some "="%char.
Proof.
  unfold sha256_base64, SHA256.digest.
  generalize (SHA256.hash (bytes_of_string s)).
  intros st. reflexivity.
Qed.

Opaque sha256_base64.

(** X1. [createHash] returns for every string, a digest of 44 characters
    of which the last is the padding '='; on a value that is not a string
    it throws a TypeError. *)
Theorem createHash_digest (value : JsVal) :
  (forall s,
      value = JStr s ->
      exists digest,
        createHash value = Ret digest
        /\ String.length digest = 44%nat
        /\ String.get 43 digest = Some "="%char)
  /\ ((forall s, value <> JStr s) -> createHash value = Throw TypeError).
Proof.
  split.
  - intros s ->. exists (sha256_base64 s).
    split; [reflexivity |].
    split; [apply sha256_base64_length | apply sha256_base64_last].
  - intros Hvalue. destruct value; try reflexivity. now destruct (Hvalue s).
Qed.

Section MoreProperties.

Variable AUTH : string.
Variable SQS_SUFFIX : string.
Variable JSON_parse : JsVal -> Completion JsVal.
Variable ToNumber_object : JsVal -> Completion Number.

Lemma authenticate_rejects (c : string) :
  sha256_base64 c <> sha256_base64 AUTH ->
  authenticate AUTH (JStr c) = Ret false.
Proof.
  intros Hdiffer. rewrite authenticate_string. f_equal.
  destruct (matches_from (AUTH_HASH AUTH) (sha256_base64 c) 0) eqn:Hmatch;
    [| reflexivity].
  exfalso. apply Hdiffer.
  apply matches_from_same_length in Hmatch.
  - rewrite Hmatch. unfold AUTH_HASH.
    apply string_of_list_ascii_of_string.
  - now rewrite AUTH_HASH_length, sha256_base64_length.
Qed.

(** X2. [authenticate] never answers false to a credential that is not a
    string: it throws a TypeError.  A request with a body and with query
    parameters whose [auth] is not a string, or is missing, is therefore
    answered 500, with no push. *)
Theorem authenticate_not_a_string (auth : JsVal) :
  (forall s, auth <> JStr s) ->
  authenticate AUTH auth = Throw TypeError
  /\ forall sqs data request_body queryStringParameters,
      Get data "body" = Ret request_body ->
      truthy request_body = true ->
      Get data "queryStringParameters" = Ret queryStringParameters ->
      truthy queryStringParameters = true ->
      Get queryStringParameters "auth" = Ret auth ->
      main AUTH SQS_SUFFIX JSON_parse ToNumber_object sqs data
      = (InternalServerError, []).
Proof.
  intros Hauth.
  assert (Hthrows : authenticate AUTH auth = Throw TypeError)
    by now apply authenticate_throws.
  split; [exact Hthrows |].
  intros sqs data request_body queryStringParameters
    Hbody Htruthy Hquery Hq Hget.
  unfold main, main_try, main_batch.
  rewrite Hbody. cbn [bind]. rewrite Htruthy, Hquery. cbn [bind].
  rewrite Hq. cbn [negb]. rewrite Hget. cbn [bind]. rewrite Hthrows.
  reflexivity.
Qed.

(** X3. A request with a body is answered 401 'Unauthorized', with no
    push and whatever [JSON.parse] would make of the body, when it has no
    query parameters and when its [auth] is a string whose digest is not
    the digest of the secret. *)
Theorem main_unauthorized (sqs : Sqs)
  (data request_body queryStringParameters : JsVal) :
  Get data "body" = Ret request_body ->
  truthy request_body = true ->
  Get data "queryStringParameters" = Ret queryStringParameters ->
  truthy queryStringParameters = false
  \/ (exists c,
         Get queryStringParameters "auth" = Ret (JStr c)
         /\ sha256_base64 c <> sha256_base64 AUTH) ->
  main AUTH SQS_SUFFIX JSON_parse ToNumber_object sqs data
  = ({| statusCode := 401;
        body := "Unauthorized";
        isBase64Encoded := false |}, []).
Proof.
  intros Hbody Htruthy Hquery [Hnone | (c & Hauth & Hdiffer)].
  - now apply (main_unauthorized_no_query AUTH SQS_SUFFIX JSON_parse
                 ToNumber_object sqs data request_body
                 queryStringParameters).
  - apply (main_unauthorized_rejected AUTH SQS_SUFFIX JSON_parse
             ToNumber_object sqs data request_body queryStringParameters
             (JStr c)); try assumption.
    now apply authenticate_rejects.
Qed.

(** ** Direct invocations *)

Lemma main_batch_no_body (data request_body : JsVal) :
  Get data "body" = Ret request_body ->
  truthy request_body = false ->
  main_batch AUTH JSON_parse data = Ret (inr (batch_of data)).
Proof.
  intros Hbody Hfalsy. unfold main_batch.
  rewrite Hbody. cbn [bind]. rewrite Hfalsy. cbn [bind].
  destruct data; reflexivity.
Qed.

(** X4. An invocation whose data has no body (or a falsy one) is not
    authenticated and not parsed: the response and the pushes are the same
    for every secret and every [JSON.parse]. *)
Theorem main_no_body_not_authenticated (sqs : Sqs)
  (data request_body : JsVal)
  (AUTH' : string) (JSON_parse' : JsVal -> Completion JsVal) :
  Get data "body" = Ret request_body ->
  truthy request_body = false ->
  main AUTH SQS_SUFFIX JSON_parse ToNumber_object sqs data
  = main AUTH' SQS_SUFFIX JSON_parse' ToNumber_object sqs data.
Proof.
  intros Hbody Hfalsy. unfold main, main_try.
  rewrite (main_batch_no_body data request_body Hbody Hfalsy).
  unfold main_batch. rewrite Hbody. cbn [bind]. rewrite Hfalsy. cbn [bind].
  destruct data; reflexivity.
Qed.

(** X5. A direct invocation with one event that is not an array is the
    invocation with the array of that event alone.  The data [null] is not
    such an event: reading its [body] throws, which is answered 500, while
    the array of [null] alone is a batch with nothing to push. *)
Theorem main_single_event (sqs : Sqs) :
  (forall data request_body,
      Get data "body" = Ret request_body ->
      truthy request_body = false ->
      isArray data = false ->
      main AUTH SQS_SUFFIX JSON_parse ToNumber_object sqs data
      = main AUTH SQS_SUFFIX JSON_parse ToNumber_object sqs (JArr [ data ]))
  /\ main AUTH SQS_SUFFIX JSON_parse ToNumber_object sqs JNull
     = (InternalServerError, [])
  /\ main AUTH SQS_SUFFIX JSON_parse ToNumber_object sqs (JArr [ JNull ])
     = (Processed 0, []).
Proof.
  split; [| split; reflexivity].
  intros data request_body Hbody Hfalsy Harray. unfold main, main_try.
  rewrite (main_batch_no_body data request_body Hbody Hfalsy).
  rewrite main_batch_direct.
  destruct data; try reflexivity. discriminate Harray.
Qed.

(** ** The response and the pushes *)

Lemma mapM_length {A B : Type} (f : A -> Completion B) (l : list A) :
  forall results, mapM f l = Ret results ->
                  List.length results = List.length l.
Proof.
  induction l as [| x rest IH]; intros results; simpl.
  - intros H. apply Ret_inj in H. now subst.
  - destruct (f x) as [y |]; cbn [bind]; [| discriminate].
    destruct (mapM f rest) as [ys |]; cbn [bind]; [| discriminate].
    intros H. apply Ret_inj in H. subst results. simpl.
    now rewrite (IH ys eq_refl).
Qed.

Lemma mapM_In {A B : Type} (f : A -> Completion B) (l : list A) :
  forall results y,
    mapM f l = Ret results -> In y results ->
    exists x, In x l /\ f x = Ret y.
Proof.
  induction l as [| x rest IH]; intros results y; simpl.
  - intros H. apply Ret_inj in H. subst results. contradiction.
  - destruct (f x) as [y0 |] eqn:Hx; cbn [bind]; [| discriminate].
    destruct (mapM f rest) as [ys |]; cbn [bind]; [| discriminate].
    intros H. apply Ret_inj in H. subst results.
    intros [-> | Hin].
    + exists x. auto.
    + destruct (IH ys y eq_refl Hin) as (x' & Hin' & Hx'). eauto.
Qed.

Lemma mapM_app {A B : Type} (f : A -> Completion B) (l1 l2 : list A) :
  forall r1 r2,
    mapM f l1 = Ret r1 -> mapM f l2 = Ret r2 ->
    mapM f (l1 ++ l2)%list = Ret (r1 ++ r2)%list.
Proof.
  induction l1 as [| x rest IH]; intros r1 r2; simpl.
  - intros H1 H2. apply Ret_inj in H1. now subst.
  - destruct (f x) as [y |]; cbn [bind]; [| discriminate].
    destruct (mapM f rest) as [ys |]; cbn [bind]; [| discriminate].
    intros H1 H2. apply Ret_inj in H1. subst r1.
    now rewrite (IH ys r2 eq_refl H2).
Qed.

Lemma compact_length {A : Type} (l : list (option A)) :
  (List.length (compact l) <= List.length l)%nat.
Proof. induction l as [| [x |] rest IH]; simpl; lia. Qed.

Lemma compact_app {A : Type} (l1 l2 : list (option A)) :
  compact (l1 ++ l2)%list = (compact l1 ++ compact l2)%list.
Proof. induction l1 as [| [x |] rest IH]; simpl; congruence. Qed.

Lemma compact_In {A : Type} (l : list (option A)) (x : A) :
  In x (compact l) -> In (Some x) l.
Proof.
  induction l as [| [y |] rest IH]; simpl; [tauto | |]; intuition congruence.
Qed.

Lemma sendEvents_length (sqs : Sqs) (events : list Notification) :
  forall first,
    List.length (sendEvents SQS_SUFFIX sqs first events)
    = List.length events.
Proof. induction events; intros first; simpl; congruence. Qed.

Lemma main_batch_response (data : JsVal) (response : Response) :
  main_batch AUTH JSON_parse data = Ret (inl response) ->
  response = Unauthorized.
Proof.
  unfold main_batch.
  destruct (Get data "body") as [request_body |]; cbn [bind];
    [| discriminate].
  destruct (truthy request_body); cbn [bind].
  - destruct (Get data "queryStringParameters") as [q |]; cbn [bind];
      [| discriminate].
    destruct (truthy q); cbn [negb bind].
    + destruct (Get q "auth") as [auth |]; cbn [bind]; [| discriminate].
      destruct (authenticate AUTH auth) as [[|] |]; cbn [negb bind];
        [| intros H; apply Ret_inj in H; congruence | discriminate].
      destruct (JSON_parse request_body) as [[] |]; cbn [bind];
        discriminate.
    + intros H. apply Ret_inj in H. congruence.
  - destruct data; discriminate.
Qed.

(** X6. Whatever the data and the queue service, [main] returns one of
    three responses, never encoded in base64: 401 'Unauthorized', and then
    nothing was pushed; 500 'Internal Server Error'; or 200 with
    'Processed N events', where N is the number of pushes made.  There are
    never more pushes than events in the batch. *)
Theorem main_response (sqs : Sqs) (data : JsVal) :
  let result := main AUTH SQS_SUFFIX JSON_parse ToNumber_object sqs data in
  isBase64Encoded (fst result) = false
  /\ ((fst result = Unauthorized /\ snd result = [])
      \/ fst result = InternalServerError
      \/ fst result = Processed (List.length (snd result)))
  /\ (forall events,
        main_batch AUTH JSON_parse data = Ret (inr events) ->
        (List.length (snd result) <= List.length events)%nat).
Proof.
  unfold main, main_try, processEvents.
  destruct (main_batch AUTH JSON_parse data) as [[response | events] |]
    eqn:Hbatch; cbn [fst snd].
  - apply main_batch_response in Hbatch. subst response.
    repeat split; [auto | discriminate].
  - destruct (mapM (marshallEvent ToNumber_object) events)
      as [marshalled |] eqn:Hmarshalled; cbn [fst snd].
    + assert (Hle : (List.length (map (push_of SQS_SUFFIX)
                                       (compact marshalled))
                     <= List.length events)%nat).
      { rewrite length_map, <- (mapM_length _ _ _ Hmarshalled).
        apply compact_length. }
      destruct (Promise_all (sendEvents SQS_SUFFIX sqs 0
                               (compact marshalled)))
        as [results |] eqn:Hall; cbn [fst snd].
      * split; [reflexivity |]. split.
        -- right. right. f_equal. unfold Promise_all in Hall.
           rewrite (mapM_length _ _ _ Hall), sendEvents_length.
           now rewrite length_map.
        -- intros events' H. apply Ret_inj in H.
           injection H as <-. exact Hle.
      * split; [reflexivity |]. split; [auto |].
        intros events' H. apply Ret_inj in H. injection H as <-. exact Hle.
    + split; [reflexivity |]. split; [auto |]. intros; simpl; lia.
  - split; [reflexivity |]. split; [auto |]. discriminate.
Qed.

(** X7. [QUEUES] names three different queues for the three notification
    types, each ending with the suffix of the configuration. *)
Theorem QUEUES_distinct (t1 t2 : string) :
  In t1 [ "Bounce"; "Complaint"; "Delivery" ] ->
  In t2 [ "Bounce"; "Complaint"; "Delivery" ] ->
  (exists name, QUEUES SQS_SUFFIX t1 = JStr (name ++ SQS_SUFFIX))
  /\ (QUEUES SQS_SUFFIX t1 = QUEUES SQS_SUFFIX t2 -> t1 = t2).
Proof.
  simpl. intros H1 H2. split.
  - destruct H1 as [<- | [<- | [<- | []]]].
    + now exists "fxa-email-bounce-".
    + now exists "fxa-email-complaint-".
    + now exists "fxa-email-delivery-".
  - destruct H1 as [<- | [<- | [<- | []]]];
      destruct H2 as [<- | [<- | [<- | []]]];
      cbn; intros H; try reflexivity; discriminate H.
Qed.

(** ** Notifications and their queues *)

Lemma built_typed (event : JsVal) (iso : string) (kind : JsVal)
  (part : Part) (m : mail.t) :
  built event iso kind part ->
  well_typed (spread m part)
  /\ ((kind = JStr "bounce" \/ kind = JStr "dropped")
       /\ part_notificationType part = "Bounce"
      \/ kind = JStr "delivered"
         /\ part_notificationType part = "Delivery"
      \/ kind = JStr "spamreport"
         /\ part_notificationType part = "Complaint").
Proof.
  intros [kind' part' Hkind H | part' H | part' H]; unfold well_typed.
  - apply marshallBounceEvent_shape in H.
    destruct H as (b & email & id & -> & _). cbn. auto.
  - apply marshallDeliveryEvent_shape in H.
    destruct H as (email & response & _ & _ & ->). cbn. auto.
  - apply marshallComplaintEvent_shape in H.
    destruct H as (email & id & _ & _ & ->). cbn. auto 6.
Qed.

Lemma marshalled_typed (event : JsVal) (n : Notification) :
  marshallEvent ToNumber_object event = Ret (Some n) -> well_typed n.
Proof.
  intros Hn.
  destruct (marshallEvent_Some ToNumber_object event n Hn)
    as (raw & id & kind & iso & m & part & _ & _ & _ & _ & _ & _ & _ & _
        & Hbuilt & ->).
  exact (proj1 (built_typed event iso kind part m Hbuilt)).
Qed.

(** X8. A notification is made of a 'bounce' or a 'dropped' event, and is
    then a Bounce, of a 'delivered' event, and is then a Delivery, or of a
    'spamreport' event, and is then a Complaint; its sub-record is under
    the key of its type.  No other value of [event] gives a
    notification. *)
Theorem marshallEvent_kind (event : JsVal) (n : Notification) :
  marshallEvent ToNumber_object event = Ret (Some n) ->
  well_typed n
  /\ exists kind,
      Get event "event" = Ret kind
      /\ ((kind = JStr "bounce" \/ kind = JStr "dropped")
           /\ notificationType n = "Bounce"
          \/ kind = JStr "delivered" /\ notificationType n = "Delivery"
          \/ kind = JStr "spamreport" /\ notificationType n = "Complaint").
Proof.
  intros Hn.
  destruct (marshallEvent_Some ToNumber_object event n Hn)
    as (raw & id & kind & iso & m & part & _ & _ & _ & _ & Hkind & _ & _ & _
        & Hbuilt & ->).
  destruct (built_typed event iso kind part m Hbuilt) as [Htyped Hcases].
  split; [exact Htyped |]. exists kind. split; [exact Hkind |].
  exact Hcases.
Qed.

(** X9. Every push that [main] makes carries the notification of an event
    of the batch, and goes to the queue of its type: a Bounce to the bounce
    queue, a Delivery to the delivery queue, a Complaint to the complaint
    queue.  No push goes to an undefined queue. *)
Theorem main_pushes_queue (sqs : Sqs) (data : JsVal) (p : Push) :
  In p (snd (main AUTH SQS_SUFFIX JSON_parse ToNumber_object sqs data)) ->
  (exists events event,
      main_batch AUTH JSON_parse data = Ret (inr events)
      /\ In event events
      /\ marshallEvent ToNumber_object event = Ret (Some (message p)))
  /\ match detail (message p) with
     | bounce _ => queue p = JStr ("fxa-email-bounce-" ++ SQS_SUFFIX)
     | delivery _ => queue p = JStr ("fxa-email-delivery-" ++ SQS_SUFFIX)
     | complaint _ => queue p = JStr ("fxa-email-complaint-" ++ SQS_SUFFIX)
     end.
Proof.
  unfold main, main_try, processEvents.
  destruct (main_batch AUTH JSON_parse data) as [[response | events] |];
    cbn [snd]; try contradiction.
  destruct (mapM (marshallEvent ToNumber_object) events)
    as [marshalled |] eqn:Hmarshalled; cbn [snd]; [| contradiction].
  destruct (Promise_all (sendEvents SQS_SUFFIX sqs 0 (compact marshalled)));
    cbn [snd]; intros Hin.
  all: apply in_map_iff in Hin; destruct Hin as (n & <- & Hn).
  all: apply compact_In in Hn.
  all: destruct (mapM_In _ _ _ _ Hmarshalled Hn) as (event & Hevent & Hrun).
  all: split; [exists events, event; auto |].
  all: apply marshalled_typed in Hrun; unfold well_typed in Hrun.
  all: cbn [message queue push_of].
  all: destruct (detail n); rewrite Hrun; reflexivity.
Qed.

(** ** When [marshallEvent] throws *)

Lemma marshallBounceEvent_throws (props : list (string * JsVal))
  (timestamp : string) :
  strict_eq (lookup "event" props) EVENTS.DROPPED = false ->
  truthy (lookup "status" props) = true ->
  (forall s, lookup "status" props <> JStr s) ->
  marshallBounceEvent (JObj props) timestamp = Throw TypeError.
Proof.
  intros Hkind Htruthy Hstatus. unfold marshallBounceEvent.
  rewrite !Get_object. cbn [bind]. rewrite Hkind, Htruthy.
  destruct (lookup "status" props); try reflexivity.
  now destruct (Hstatus s).
Qed.

(** X10. For a record whose [timestamp] is a number and whose
    [timestamp], [sg_message_id] and [event] are truthy, [marshallEvent]
    throws in three cases and in no other: the timestamp times 1000 is
    beyond the range of [Date]; [sg_message_id] is not a string; the event
    is a 'bounce' whose [status] is truthy and is not a string. *)
Theorem marshallEvent_throws_iff (props : list (string * JsVal))
  (seconds : Z) :
  lookup "timestamp" props = JNum seconds ->
  seconds <> 0 ->
  truthy (lookup "sg_message_id" props) = true ->
  truthy (lookup "event" props) = true ->
  throws (marshallEvent ToNumber_object (JObj props))
  <-> (8640000000000000 < Z.abs (seconds * 1000)
       \/ (forall s, lookup "sg_message_id" props <> JStr s)
       \/ (lookup "event" props = JStr "bounce"
           /\ truthy (lookup "status" props) = true
           /\ forall s, lookup "status" props <> JStr s)).
Proof.
  intros Hts Hnz Hid Hkind.
  assert (Hstart :
            marshallEvent ToNumber_object (JObj props)
            = (iso <- mapTimestamp ToNumber_object (JNum seconds) ;;
               m <- marshallMailObject (JObj props) iso ;;
               if strict_eq (lookup "event" props) EVENTS.BOUNCE
                  || strict_eq (lookup "event" props) EVENTS.DROPPED
               then part <- marshallBounceEvent (JObj props) iso ;;
                    Ret (Some (spread m part))
               else if strict_eq (lookup "event" props) EVENTS.DELIVERED
               then part <- marshallDeliveryEvent (JObj props) iso ;;
                    Ret (Some (spread m part))
               else if strict_eq (lookup "event" props) EVENTS.SPAM
               then part <- marshallComplaintEvent (JObj props) iso ;;
                    Ret (Some (spread m part))
               else Ret None)).
  { unfold marshallEvent. rewrite !Get_object. cbn [truthy negb bind].
    rewrite Hid, Hkind, Hts. cbn [truthy negb].
    apply Z.eqb_neq in Hnz. rewrite Hnz. reflexivity. }
  rewrite Hstart. clear Hstart.
  destruct (Z_le_gt_dec (Z.abs (seconds * 1000)) 8640000000000000)
    as [Hrange | Hrange].
  2: { rewrite mapTimestamp_out_of_range by lia. cbn [bind].
       split; [intros _; left; lia | intros _; now exists RangeError]. }
  rewrite (mapTimestamp_number ToNumber_object seconds Hrange). cbn [bind].
  destruct (lookup "sg_message_id" props) as [| | b | z | id | items | fields]
    eqn:Hmessage.
  1-4, 6-7:
    unfold marshallMailObject; rewrite Get_object, Hmessage; cbn;
    split; [intros _; right; left; intros s; discriminate
           | intros _; now exists TypeError].
  rewrite (marshallMailObject_string (JObj props) _ id)
    by (rewrite Get_object, Hmessage; reflexivity).
  cbn [bind].
  assert (Hno : forall P : Prop,
             8640000000000000 < Z.abs (seconds * 1000)
             \/ (forall s, JStr id <> JStr s) \/ P -> P).
  { intros P [H | [H | H]]; [lia | now destruct (H id) | exact H]. }
  destruct (strict_eq (lookup "event" props) EVENTS.BOUNCE) eqn:Hbounce.
  - apply strict_eq_true in Hbounce. cbn [orb].
    destruct (truthy (lookup "status" props)) eqn:Hstatus.
    + destruct (lookup "status" props) as [| | b | z | st | items | fields]
        eqn:Hst.
      1-4, 6-7:
        rewrite (marshallBounceEvent_throws props)
          by (rewrite ?Hbounce, ?Hst; try reflexivity; try exact Hstatus;
              intros s; discriminate);
        cbn [bind];
        split; [intros _; right; right; repeat split; auto;
                intros s; discriminate
               | intros _; now exists TypeError].
      destruct (marshallBounceEvent_returns props
                  (Date.format (seconds * 1000))) as [part ->].
      { intros _ _. rewrite Hst. eauto. }
      cbn [bind]. split.
      * intros [e He]. discriminate He.
      * intros H. apply Hno in H. destruct H as (_ & _ & H).
        now destruct (H st).
    + destruct (marshallBounceEvent_returns props
                  (Date.format (seconds * 1000))) as [part ->].
      { intros _ H. rewrite Hstatus in H. discriminate H. }
      cbn [bind]. split.
      * intros [e He]. discriminate He.
      * intros H. apply Hno in H. destruct H as (_ & H & _). discriminate H.
  - assert (Hnot : lookup "event" props <> JStr "bounce").
    { intros H. apply strict_eq_true in H. unfold EVENTS.BOUNCE in Hbounce.
      congruence. }
    assert (Hreturns :
              forall c : Completion (option Notification),
                (exists r, c = Ret r) ->
                throws c
                <-> 8640000000000000 < Z.abs (seconds * 1000)
                    \/ (forall s, JStr id <> JStr s)
                    \/ lookup "event" props = JStr "bounce"
                       /\ truthy (lookup "status" props) = true
                       /\ (forall s, lookup "status" props <> JStr s)).
    { intros c [r ->]. split.
      - intros [e He]. discriminate He.
      - intros H. apply Hno in H. destruct H as (H & _). contradiction. }
    apply Hreturns. cbn [orb].
    destruct (strict_eq (lookup "event" props) EVENTS.DROPPED) eqn:Hdropped.
    { destruct (marshallBounceEvent_returns props
                  (Date.format (seconds * 1000))) as [part ->].
      { intros H. rewrite Hdropped in H. discriminate H. }
      cbn [bind]. eauto. }
    destruct (strict_eq (lookup "event" props) EVENTS.DELIVERED).
    { unfold marshallDeliveryEvent. rewrite !Get_object. cbn [bind]. eauto. }
    destruct (strict_eq (lookup "event" props) EVENTS.SPAM).
    { unfold marshallComplaintEvent. rewrite !Get_object. cbn [bind].
      eauto. }
    eauto.
Qed.

(** ** What the marshallers read and write *)

(** X11. [marshallEvent] reads seven fields of a record, [timestamp],
    [sg_message_id], [event], [status], [email], [sg_event_id] and
    [response]: two records that agree on them are marshalled alike,
    whatever else they hold. *)
Theorem marshallEvent_fields (props props' : list (string * JsVal)) :
  (forall key, In key event_fields -> lookup key props = lookup key props') ->
  marshallEvent ToNumber_object (JObj props)
  = marshallEvent ToNumber_object (JObj props').
Proof.
  intros Hsame.
  assert (Hfield : forall key,
             In key event_fields ->
             Get (JObj props) key = Get (JObj props') key).
  { intros key Hin. rewrite !Get_object. now rewrite (Hsame key Hin). }
  unfold marshallEvent, marshallMailObject, marshallBounceEvent,
    marshallDeliveryEvent, marshallComplaintEvent.
  cbn [truthy negb].
  rewrite (Hfield "timestamp"), (Hfield "sg_message_id"), (Hfield "event"),
    (Hfield "status"), (Hfield "email"), (Hfield "sg_event_id"),
    (Hfield "response")
    by (unfold event_fields; simpl; tauto).
  reflexivity.
Qed.

(** X12. The bounce record that [marshallBounceEvent] returns has one of
    two types, Permanent and Transient, and one of six sub-types; the
    sub-type is Suppressed for a 'dropped' event and for no other, and the
    type is Permanent only for a 'dropped' event or a status of three parts
    of which the first is '5'. *)
Theorem marshallBounceEvent_vocabulary (props : list (string * JsVal))
  (timestamp : string) (part : Part) :
  marshallBounceEvent (JObj props) timestamp = Ret part ->
  exists b,
    part_detail part = bounce b
    /\ In (bounce.bounceType b) bounce_types
    /\ In (bounce.bounceSubType b) bounce_sub_types
    /\ (bounce.bounceSubType b = "Suppressed"
        <-> lookup "event" props = JStr "dropped")
    /\ (bounce.bounceType b = "Permanent" ->
        lookup "event" props = JStr "dropped"
        \/ exists status subject detail,
            lookup "status" props = JStr status
            /\ split "." status = [ "5"; subject; detail ]).
Proof.
  unfold marshallBounceEvent. rewrite !Get_object. cbn [bind].
  destruct (strict_eq (lookup "event" props) EVENTS.DROPPED) eqn:Hdropped.
  { apply strict_eq_true in Hdropped. cbn [bind].
    intros H. apply Ret_inj in H. subst part. eexists.
    split; [reflexivity |]. cbn. unfold EVENTS.DROPPED in Hdropped.
    repeat split; auto. }
  assert (Hnot : lookup "event" props <> JStr "dropped").
  { intros H. apply strict_eq_true in H. unfold EVENTS.DROPPED in Hdropped.
    congruence. }
  assert (Hgeneral :
            forall b,
              bounce.bounceType b = "Transient" ->
              bounce.bounceSubType b = "General" ->
              In (bounce.bounceType b) bounce_types
              /\ In (bounce.bounceSubType b) bounce_sub_types
              /\ (bounce.bounceSubType b = "Suppressed"
                  <-> lookup "event" props = JStr "dropped")
              /\ (bounce.bounceType b = "Permanent" ->
                  lookup "event" props = JStr "dropped"
                  \/ exists status subject detail,
                      lookup "status" props = JStr status
                      /\ split "." status = [ "5"; subject; detail ])).
  { intros b -> ->. cbn. repeat split; auto 8; try discriminate.
    intros H. contradiction. }
  destruct (truthy (lookup "status" props)).
  2: { cbn [bind]. intros H. apply Ret_inj in H. subst part. eexists.
       split; [reflexivity |]. now apply Hgeneral. }
  destruct (lookup "status" props) as [| | b | z | status | items | fields];
    try discriminate.
  cbn [call_split bind].
  destruct (split "." status) as [| class [| subject [| detail [| x rest]]]]
    eqn:Hsplit; cbn [List.length Nat.eqb bind];
    try (intros H; apply Ret_inj in H; subst part; eexists;
         split; [reflexivity |]; now apply Hgeneral).
  intros H. apply Ret_inj in H. subst part. eexists.
  split; [reflexivity |]. cbn [bounce.bounceType bounce.bounceSubType fst snd].
  unfold mapStatusToBounceSubType. cbn [nth_error part_eq].
  assert (Hclass : In (or_else (if (class =? "5")%string
                                then Some "Permanent" else None)
                               "Transient") bounce_types).
  { destruct (class =? "5")%string; cbn; auto. }
  assert (Hpermanent :
            or_else (if (class =? "5")%string then Some "Permanent" else None)
                    "Transient" = "Permanent" ->
            class = "5").
  { destruct (String.eqb_spec class "5"); [auto | cbn; discriminate]. }
  split; [exact Hclass |].
  assert (Hsub :
            forall sub,
              In sub bounce_sub_types -> sub <> "Suppressed" ->
              In sub bounce_sub_types
              /\ (sub = "Suppressed"
                  <-> lookup "event" props = JStr "dropped")
              /\ (or_else (if (class =? "5")%string
                           then Some "Permanent" else None)
                          "Transient" = "Permanent" ->
                  lookup "event" props = JStr "dropped"
                  \/ exists status0 subject0 detail0,
                      JStr status = JStr status0
                      /\ split "." status0 = [ "5"; subject0; detail0 ])).
  { intros sub Hin Hne. split; [exact Hin |]. split.
    - split; intros H; contradiction.
    - intros H. apply Hpermanent in H. subst class. right.
      exists status, subject, detail. rewrite <- Hsplit. auto. }
  destruct (subject =? "1")%string;
    [apply Hsub; cbn; [auto 8 | discriminate] |].
  destruct (subject =? "2")%string.
  { destruct (detail =? "2")%string;
      [apply Hsub; cbn; [auto 8 | discriminate] |].
    destruct (detail =? "3")%string;
      apply Hsub; cbn; [auto 8 | discriminate | auto 8 | discriminate]. }
  destruct (subject =? "6")%string;
    apply Hsub; cbn; [auto 8 | discriminate | auto 8 | discriminate].
Qed.

(** ** The message id *)

Lemma before_is_prefix (sep s : string) :
  exists rest, s = (before sep s ++ rest)%string.
Proof.
  induction s as [| c s [rest IH]]; simpl.
  - now exists EmptyString.
  - destruct (prefix_of sep (String c s)).
    + now exists (String c s).
    + exists rest. simpl. now rewrite <- IH.
Qed.

Lemma prefix_of_longer (p s rest : string) :
  prefix_of p s = true -> prefix_of p (s ++ rest) = true.
Proof.
  intros H. apply prefix_of_iff in H. destruct H as [post ->].
  apply prefix_of_iff. exists (post ++ rest)%string. apply append_assoc.
Qed.

Lemma before_has_no_separator (sep : string) :
  sep <> EmptyString ->
  forall s a b, before sep s <> (a ++ sep ++ b)%string.
Proof.
  intros Hsep. induction s as [| c s IH]; intros a b; simpl.
  - destruct a; simpl; [| discriminate].
    destruct sep; [contradiction | discriminate].
  - destruct (prefix_of sep (String c s)) eqn:Hprefix.
    + destruct a; simpl; [| discriminate].
      destruct sep; [contradiction | discriminate].
    + destruct a as [| c' a]; simpl.
      * intros H.
        assert (Hp : prefix_of sep (String c (before sep s)) = true).
        { apply prefix_of_iff. now exists b. }
        destruct (before_is_prefix sep s) as [rest Hrest].
        apply (prefix_of_longer _ _ rest) in Hp. simpl append in Hp.
        rewrite <- Hrest in Hp. congruence.
      * intros [= _ H]. exact (IH a b H).
Qed.

(** X13. The [messageId] of the mail object is a prefix of
    [sg_message_id] in which '.filter' does not occur. *)
Theorem marshallMailObject_messageId (event : JsVal) (timestamp : string)
  (m : mail.t) :
  marshallMailObject event timestamp = Ret m ->
  exists sg_message_id rest,
    Get event "sg_message_id" = Ret (JStr sg_message_id)
    /\ sg_message_id = (mail.messageId m ++ rest)%string
    /\ (forall a b, mail.messageId m <> (a ++ ".filter" ++ b)%string)
    /\ mail.timestamp m = timestamp.
Proof.
  intros Hm.
  destruct (marshallMailObject_shape event timestamp m Hm) as (id & Hid & ->).
  destruct (before_is_prefix ".filter" id) as [rest Hrest].
  exists id, rest. cbn [mail.messageId mail.timestamp].
  repeat split; try assumption.
  apply before_has_no_separator. discriminate.
Qed.

(** ** The timestamp *)

Lemma append_length (a b : string) :
  String.length (a ++ b)%string = (String.length a + String.length b)%nat.
Proof. induction a; simpl; congruence. Qed.

Lemma digits_length (width : nat) :
  forall n, String.length (Date.digits width n) = width.
Proof.
  induction width as [| width IH]; intros n; simpl.
  - reflexivity.
  - rewrite append_length, IH. simpl. lia.
Qed.

Lemma year_string_length (y : Z) :
  String.length (Date.year_string y) = 4%nat
  \/ String.length (Date.year_string y) = 7%nat.
Proof.
  unfold Date.year_string.
  destruct ((0 <=? y) && (y <=? 9999)).
  - left. apply digits_length.
  - right. cbv zeta.
    destruct (y <? 0); rewrite append_length, digits_length; reflexivity.
Qed.

(** X14. [mapTimestamp] of a number of seconds returns when the number
    times 1000 is within the range of [Date], 8.64e15 milliseconds on each
    side of the epoch, and throws a RangeError otherwise.  The string it
    returns has 24 characters, or 27 when the year takes a sign and six
    digits, and ends with '.000Z': a whole number of seconds has no
    milliseconds. *)
Theorem mapTimestamp_seconds (seconds : Z) :
  (Z.abs (seconds * 1000) <= 8640000000000000 ->
   exists front,
     mapTimestamp ToNumber_object (JNum seconds) = Ret (front ++ ".000Z")
     /\ (String.length front = 19%nat \/ String.length front = 22%nat))
  /\ (8640000000000000 < Z.abs (seconds * 1000) ->
      mapTimestamp ToNumber_object (JNum seconds) = Throw RangeError).
Proof.
  split; [| apply mapTimestamp_out_of_range].
  intros Hrange. rewrite (mapTimestamp_number _ _ Hrange).
  unfold Date.format.
  destruct (Date.civil (Date.Day (seconds * 1000))) as [[y m] d].
  assert (Hms : Date.TimeWithinDay (seconds * 1000) mod 1000 = 0).
  { unfold Date.TimeWithinDay, Date.msPerDay.
    replace 86400000 with (86400 * 1000) by reflexivity.
    rewrite Z.mul_mod_distr_r by lia.
    apply Z.mod_mul. lia. }
  rewrite Hms.
  set (ms := Date.TimeWithinDay (seconds * 1000)).
  exists (Date.year_string y ++ "-" ++ Date.digits 2 m ++ "-"
          ++ Date.digits 2 d ++ "T" ++ Date.digits 2 (ms / 3600000) ++ ":"
          ++ Date.digits 2 (ms / 60000 mod 60) ++ ":"
          ++ Date.digits 2 (ms / 1000 mod 60))%string.
  split.
  - f_equal. rewrite !append_assoc. reflexivity.
  - rewrite !append_length, !digits_length. simpl.
    destruct (year_string_length y) as [-> | ->]; [left | right]; reflexivity.
Qed.

(** ** Batches *)

(** X15. The pushes of a batch are made in the order of its events: when
    no event of two batches makes [marshallEvent] throw, the pushes of the
    two batches one after the other are the pushes of the first followed
    by the pushes of the second. *)
Theorem processEvents_app (sqs : Sqs) (events1 events2 : list JsVal) :
  (forall event, In event (events1 ++ events2)%list ->
                 ~ throws (marshallEvent ToNumber_object event)) ->
  snd (processEvents SQS_SUFFIX ToNumber_object sqs (events1 ++ events2)%list)
  = (snd (processEvents SQS_SUFFIX ToNumber_object sqs events1)
       ++ snd (processEvents SQS_SUFFIX ToNumber_object sqs events2))%list.
Proof.
  intros Hreturn.
  assert (Hok : forall events,
             (forall event, In event events ->
                            ~ throws (marshallEvent ToNumber_object event)) ->
             exists marshalled,
               mapM (marshallEvent ToNumber_object) events = Ret marshalled).
  { induction events as [| event rest IH]; intros Hrest; simpl.
    - eauto.
    - destruct (marshallEvent ToNumber_object event) as [r |] eqn:Hevent.
      + destruct IH as [marshalled ->].
        { intros e He. apply Hrest. now right. }
        cbn [bind]. eauto.
      + exfalso. apply (Hrest event); [now left |].
        exists e. exact Hevent. }
  destruct (Hok events1) as [m1 H1].
  { intros e He. apply Hreturn, in_or_app. now left. }
  destruct (Hok events2) as [m2 H2].
  { intros e He. apply Hreturn, in_or_app. now right. }
  unfold processEvents.
  rewrite (mapM_app _ _ _ _ _ H1 H2), H1, H2. cbn [snd].
  now rewrite compact_app, map_app.
Qed.

End MoreProperties.

(** ** These properties at the examples *)

Lemma createHash_digest_witness :
  (exists digest,
      createHash (JStr "abc") = Ret digest
      /\ String.length digest = 44%nat
      /\ String.get 43 digest = Some "="%char)
  /\ createHash JUndefined = Throw TypeError.
Proof.
  split.
  - exact (proj1 (createHash_digest (JStr "abc")) "abc" eq_refl).
  - apply (proj2 (createHash_digest JUndefined)). intros s. discriminate.
Defined.

Lemma authenticate_not_a_string_witness :
  authenticate Demo.AUTH JUndefined = Throw TypeError
  /\ Demo.run Demo.all_sent
       (JObj [ ("body", JStr "[]"); ("queryStringParameters", JObj []) ])
     = (InternalServerError, []).
Proof.
  assert (Hauth : forall s, JUndefined <> JStr s) by (intros s; discriminate).
  destruct (authenticate_not_a_string Demo.AUTH Demo.SQS_SUFFIX
              Demo.JSON_parse Demo.ToNumber_object JUndefined Hauth)
    as [Hthrows Hmain].
  split; [exact Hthrows |].
  exact (Hmain Demo.all_sent
               (JObj [ ("body", JStr "[]");
                       ("queryStringParameters", JObj []) ])
               (JStr "[]") (JObj [])
               eq_refl eq_refl eq_refl eq_refl eq_refl).
Defined.

Lemma main_unauthorized_witness :
  sha256_base64 "guess" <> sha256_base64 Demo.AUTH
  /\ Demo.run Demo.all_sent (Demo.request "[]" "guess")
     = ({| statusCode := 401;
           body := "Unauthorized";
           isBase64Encoded := false |}, []).
Proof.
  assert (Hdiffer : sha256_base64 "guess" <> sha256_base64 Demo.AUTH).
  { intros H. vm_compute in H. discriminate H. }
  split; [exact Hdiffer |].
  apply (main_unauthorized Demo.AUTH Demo.SQS_SUFFIX Demo.JSON_parse
           Demo.ToNumber_object Demo.all_sent (Demo.request "[]" "guess")
           (JStr "[]") (JObj [ ("auth", JStr "guess") ]));
    try reflexivity.
  right. exists "guess". split; [reflexivity | exact Hdiffer].
Defined.

Lemma main_no_body_not_authenticated_witness :
  Demo.run Demo.all_sent (JArr Batch.events)
  = main "another secret" Demo.SQS_SUFFIX (fun _ => Throw SyntaxError)
         Demo.ToNumber_object Demo.all_sent (JArr Batch.events).
Proof.
  exact (main_no_body_not_authenticated Demo.AUTH Demo.SQS_SUFFIX
           Demo.JSON_parse Demo.ToNumber_object Demo.all_sent
           (JArr Batch.events) JUndefined
           "another secret" (fun _ => Throw SyntaxError) eq_refl eq_refl).
Defined.

Lemma main_single_event_witness :
  Demo.run Demo.all_sent Batch.bounced
  = Demo.run Demo.all_sent (JArr [ Batch.bounced ]).
Proof.
  exact (proj1 (main_single_event Demo.AUTH Demo.SQS_SUFFIX Demo.JSON_parse
                  Demo.ToNumber_object Demo.all_sent)
           Batch.bounced JUndefined eq_refl eq_refl eq_refl).
Defined.

Lemma main_response_witness :
  (List.length (snd (Demo.run Demo.second_fails (JArr Batch.events)))
   <= List.length Batch.events)%nat.
Proof.
  exact (proj2 (proj2 (main_response Demo.AUTH Demo.SQS_SUFFIX
                         Demo.JSON_parse Demo.ToNumber_object
                         Demo.second_fails (JArr Batch.events)))
           Batch.events eq_refl).
Defined.

Lemma QUEUES_distinct_witness :
  (exists name, QUEUES Demo.SQS_SUFFIX "Bounce" = JStr (name ++ "dev"))
  /\ (QUEUES Demo.SQS_SUFFIX "Bounce" = QUEUES Demo.SQS_SUFFIX "Delivery" ->
      "Bounce" = "Delivery").
Proof.
  apply (QUEUES_distinct Demo.SQS_SUFFIX "Bounce" "Delivery").
  - left. reflexivity.
  - right. right. left. reflexivity.
Defined.

Lemma marshallEvent_kind_witness :
  marshallEvent Demo.ToNumber_object Batch.reported
  = Ret (Some Demo.complaint_notification)
  /\ well_typed Demo.complaint_notification.
Proof.
  split; [reflexivity |].
  exact (proj1 (marshallEvent_kind Demo.ToNumber_object Batch.reported
                  Demo.complaint_notification eq_refl)).
Defined.

Lemma main_pushes_queue_witness :
  let p := {| queue := JStr "fxa-email-delivery-dev";
              message := Demo.delivery_notification |} in
  In p (snd (Demo.run Demo.second_fails (JArr Batch.events)))
  /\ queue p = JStr ("fxa-email-delivery-" ++ Demo.SQS_SUFFIX).
Proof.
  intros p.
  assert (Hin : In p (snd (Demo.run Demo.second_fails (JArr Batch.events)))).
  { right. left. reflexivity. }
  split; [exact Hin |].
  exact (proj2 (main_pushes_queue Demo.AUTH Demo.SQS_SUFFIX Demo.JSON_parse
                  Demo.ToNumber_object Demo.second_fails
                  (JArr Batch.events) p Hin)).
Defined.

Lemma marshallEvent_throws_iff_witness :
  8640000000000000 < Z.abs (Demo.too_late * 1000)
  /\ throws (marshallEvent Demo.ToNumber_object Demo.delivered_too_late).
Proof.
  split; [reflexivity |].
  apply (proj2 (marshallEvent_throws_iff Demo.ToNumber_object
                  (props_of Demo.delivered_too_late) Demo.too_late
                  eq_refl ltac:(discriminate) eq_refl eq_refl)).
  left. reflexivity.
Defined.

Lemma marshallEvent_fields_witness :
  marshallEvent Demo.ToNumber_object Batch.bounced
  = marshallEvent Demo.ToNumber_object
      (JObj (("category", JStr "newsletter") :: props_of Batch.bounced)).
Proof.
  apply (marshallEvent_fields Demo.ToNumber_object (props_of Batch.bounced)
           (("category", JStr "newsletter") :: props_of Batch.bounced)).
  intros key Hin.
  repeat (destruct Hin as [<- | Hin]; [reflexivity |]).
  destruct Hin.
Defined.

Lemma marshallBounceEvent_vocabulary_witness :
  exists b,
    detail Demo.bounce_notification = bounce b
    /\ In (bounce.bounceType b) bounce_types
    /\ In (bounce.bounceSubType b) bounce_sub_types.
Proof.
  destruct (marshallBounceEvent_vocabulary (props_of Batch.bounced)
              "2021-01-01T00:00:00.000Z"
              {| part_notificationType := "Bounce";
                 part_detail := detail Demo.bounce_notification |}
              eq_refl)
    as (b & Hb & Htype & Hsub & _).
  exists b. auto.
Defined.

Lemma marshallMailObject_messageId_witness :
  marshallMailObject Batch.delivered "2021-01-01T00:00:01.000Z"
  = Ret (mail Demo.delivery_notification)
  /\ forall a b,
      mail.messageId (mail Demo.delivery_notification)
      <> (a ++ ".filter" ++ b)%string.
Proof.
  split; [reflexivity |].
  destruct (marshallMailObject_messageId Batch.delivered
              "2021-01-01T00:00:01.000Z" (mail Demo.delivery_notification)
              eq_refl)
    as (id & rest & _ & _ & Hnone & _).
  exact Hnone.
Defined.

Lemma mapTimestamp_seconds_witness :
  exists front,
    mapTimestamp Demo.ToNumber_object (JNum 1609459200)
    = Ret (front ++ ".000Z")
    /\ (String.length front = 19%nat \/ String.length front = 22%nat).
Proof.
  apply (proj1 (mapTimestamp_seconds Demo.ToNumber_object 1609459200)).
  discriminate.
Defined.

Lemma processEvents_app_witness :
  snd (processEvents Demo.SQS_SUFFIX Demo.ToNumber_object Demo.all_sent
         ([ Batch.bounced ] ++ [ Batch.no_event; Batch.reported ])%list)
  = (snd (processEvents Demo.SQS_SUFFIX Demo.ToNumber_object Demo.all_sent
            [ Batch.bounced ])
       ++ snd (processEvents Demo.SQS_SUFFIX Demo.ToNumber_object
                 Demo.all_sent [ Batch.no_event; Batch.reported ]))%list.
Proof.
  apply (processEvents_app Demo.SQS_SUFFIX Demo.ToNumber_object
           Demo.all_sent).
  intros event [<- | [<- | [<- | []]]] [e He]; discriminate He.
Defined.
